(** * Section segmentation of the daily liturgical readings

    A shallow embedding of the segmentation loop of
    [get_liturgical_readings] in [backend/app.py] (the code that runs on the
    list [lines] once the page has been fetched and flattened), and the
    properties of it that the specification states.

    Python strings are modelled by [string]; a character [ascii] stands for
    the Unicode code point of the same number (U+0000 to U+00FF), on which
    [str.lower], [str.isdigit] and the white space of [str.strip] act
    character by character as written below.  The section names and the
    keyword phrases of the source are plain ASCII. *)

From Stdlib Require Import Ascii NArith.
From Stdlib Require String.
From stdpp Require Import base option list gmap strings.

(** ** Python exceptions and fallible accesses *)

Inductive exn : Type := IndexError | KeyError.

Inductive result (A : Type) : Type :=
| Ok (a : A)
| Raise (e : exn).
Arguments Ok {A} a.
Arguments Raise {A} e.

#[global] Instance result_ret : MRet result := @Ok.
#[global] Instance result_bind : MBind result := fun A B f m =>
  match m with
  | Ok a => f a
  | Raise e => Raise e
  end.

(** [lines[n]] for a non-negative index [n]. *)
Definition list_getitem {A : Type} (l : list A) (n : nat) : result A :=
  match l !! n with
  | Some x => Ok x
  | None => Raise IndexError
  end.

(** [d[k]] on a dict. *)
Definition dict_getitem {V : Type} (d : gmap string V) (k : string) : result V :=
  match d !! k with
  | Some v => Ok v
  | None => Raise KeyError
  end.

(** [k in d] on a dict. *)
Definition dict_contains {V : Type} (d : gmap string V) (k : string) : bool :=
  bool_decide (is_Some (d !! k)).

(** ** The string methods the loop calls *)

Module PyStr.

(** [ord(c)]. *)
Definition code (c : ascii) : N := N_of_ascii c.

(** [c.isspace()], the characters removed by [str.strip()]. *)
Definition isspace (c : ascii) : bool :=
  let n := code c in
  ((9 <=? n) && (n <=? 13) || (28 <=? n) && (n <=? 32)
   || (n =? 133) || (n =? 160))%N.

(** [c.isdigit()]: the decimal digits and the superscripts one, two, three. *)
Definition isdigit (c : ascii) : bool :=
  let n := code c in
  ((48 <=? n) && (n <=? 57) || (n =? 178) || (n =? 179) || (n =? 185))%N.

(** [c.lower()]. *)
Definition lower_char (c : ascii) : ascii :=
  let n := code c in
  if ((65 <=? n) && (n <=? 90)
      || (192 <=? n) && (n <=? 222) && negb (n =? 215))%N
  then ascii_of_N (n + 32) else c.

(** [s.lower()]. *)
Fixpoint lower (s : string) : string :=
  match s with
  | EmptyString => EmptyString
  | String c s' => String (lower_char c) (lower s')
  end.

(** [s.lstrip()]. *)
Fixpoint lstrip (s : string) : string :=
  match s with
  | EmptyString => EmptyString
  | String c s' => if isspace c then lstrip s' else s
  end.

(** [s.rstrip()]. *)
Fixpoint rstrip (s : string) : string :=
  match s with
  | EmptyString => EmptyString
  | String c s' =>
      match rstrip s' with
      | EmptyString => if isspace c then EmptyString else String c EmptyString
      | r => String c r
      end
  end.

(** [s.strip()]. *)
Definition strip (s : string) : string := rstrip (lstrip s).

(** [any(c.isdigit() for c in s)]. *)
Fixpoint any_isdigit (s : string) : bool :=
  match s with
  | EmptyString => false
  | String c s' => isdigit c || any_isdigit s'
  end.

(** [sub in s]: [sub] occurs in [s] as a contiguous substring. *)
Fixpoint contains (s sub : string) : bool :=
  String.prefix sub s ||
  match s with
  | EmptyString => false
  | String _ s' => contains s' sub
  end.

(** [sep.join(l)]. *)
Definition join (sep : string) (l : list string) : string :=
  String.concat sep l.

(** [s.replace(old, new)] for one-character [old] and [new]. *)
Fixpoint replace (old new : ascii) (s : string) : string :=
  match s with
  | EmptyString => EmptyString
  | String c s' =>
      String (if Ascii.eqb c old then new else c) (replace old new s')
  end.

(** The ASCII capital letters. *)
Definition is_upper (c : ascii) : bool :=
  let n := code c in ((65 <=? n) && (n <=? 90))%N.

(** The ASCII small letters. *)
Definition is_lower (c : ascii) : bool :=
  let n := code c in ((97 <=? n) && (n <=? 122))%N.

(** [c.upper()] on ASCII. *)
Definition upper_char (c : ascii) : ascii :=
  if is_lower c then ascii_of_N (code c - 32) else c.

(** [s.title()] on ASCII text, the only text the loop applies it to (the
    section names): a letter that follows a letter is lowered, any other
    letter is raised. *)
Fixpoint title_from (previous_is_cased : bool) (s : string) : string :=
  match s with
  | EmptyString => EmptyString
  | String c s' =>
      String (if previous_is_cased then lower_char c else upper_char c)
             (title_from (is_upper c || is_lower c) s')
  end.

Definition title (s : string) : string := title_from false s.

(** [s.split(sep)] for a one-character [sep]: a cut at every [sep], the
    empty pieces kept. *)
Fixpoint split (sep : ascii) (s : string) : list string :=
  match s with
  | EmptyString => [EmptyString]
  | String c s' =>
      if Ascii.eqb c sep then EmptyString :: split sep s'
      else match split sep s' with
           | piece :: pieces => String c piece :: pieces
           | [] => [String c EmptyString]
           end
  end.

(** [sep in s] for a one-character [sep]. *)
Fixpoint has_char (sep : ascii) (s : string) : bool :=
  match s with
  | EmptyString => false
  | String c s' => Ascii.eqb c sep || has_char sep s'
  end.

End PyStr.

(** ** Data *)

(** The dict literal stored in [readings_found] and returned in the list. *)
Record Reading : Type := mkReading {
  type : string;
  title : string;
  reference : string;
  text : string;
}.

(** [keywords], in the order of the dict literal. *)
Definition keywords : list (string * string) :=
  [ ("Primera Lectura", "first_reading");
    ("Salmo Responsorial", "psalm");
    ("Segunda Lectura", "second_reading");
    ("Evangelio", "gospel") ].

(** [ordered_keys], the liturgical order of the output. *)
Definition ordered_keys : list string :=
  ["first_reading"; "psalm"; "second_reading"; "gospel"].

(** The local variables the loop updates. *)
Record State : Type := mkState {
  buffer : list string;
  current_section : option string;
  current_ref : string;
  readings_found : gmap string Reading;
}.

(** The values the locals are given before the loop. *)
Definition init_state : State :=
  {| buffer := []; current_section := None; current_ref := "";
     readings_found := ∅ |}.

(** Truth value of a variable holding [None] or a [str]. *)
Definition truthy (o : option string) : bool :=
  match o with
  | Some s => negb (String.eqb s "")
  | None => false
  end.

(** Truth value of a list. *)
Definition nonempty {A : Type} (l : list A) : bool :=
  match l with
  | [] => false
  | _ :: _ => true
  end.

(** ** The loop *)

(** The inner [for key, val in keywords.items()] with its [break]. *)
Fixpoint detect (kws : list (string * string)) (line : string) : option string :=
  match kws with
  | [] => None
  | (key, val) :: kws' =>
      if PyStr.contains (PyStr.lower line) (PyStr.lower key)
      then Some val
      else detect kws' line
  end.

(** The lookahead that sets [current_ref] when a section starts. *)
Definition lookahead (lines : list string) (i : nat) : result string :=
  if bool_decide (i + 1 < length lines) then
    x ← list_getitem lines (i + 1);
    let next_line := PyStr.strip x in
    if PyStr.any_isdigit next_line then mret next_line else mret ""
  else mret "".

(** "Save previous section if exists", on reaching the header [line]. *)
Definition save_previous (line : string) (st : State) : gmap string Reading :=
  match current_section st with
  | Some sec =>
      if truthy (Some sec) && nonempty (buffer st) then
        let full_text := PyStr.strip (PyStr.join " " (buffer st)) in
        if negb (dict_contains (readings_found st) sec) then
          <[sec := {| type := sec;
                      title := line;
                      reference := current_ref st;
                      text := full_text |}]> (readings_found st)
        else readings_found st
      else readings_found st
  | None => readings_found st
  end.

(** One iteration of [for i, line in enumerate(lines)]. *)
Definition step (lines : list string) (i : nat) (raw : string) (st : State)
  : result State :=
  let line := PyStr.strip raw in
  if String.eqb line "" then mret st
  else
    let detected_type := detect keywords line in
    if truthy detected_type then
      let found := save_previous line st in
      ref ← lookahead lines i;
      mret {| buffer := []; current_section := detected_type;
              current_ref := ref; readings_found := found |}
    else if truthy (current_section st) then
      if negb (String.eqb line (current_ref st)) then
        mret {| buffer := buffer st ++ [line];
                current_section := current_section st;
                current_ref := current_ref st;
                readings_found := readings_found st |}
      else mret st
    else mret st.

(** The iterations for the lines [rest], which start at index [i] of [lines]. *)
Fixpoint loop (lines : list string) (i : nat) (rest : list string) (st : State)
  : result State :=
  match rest with
  | [] => mret st
  | raw :: rest' => st' ← step lines i raw st; loop lines (S i) rest' st'
  end.

(** "Save the very last section", after the loop. *)
Definition save_last (st : State) : gmap string Reading :=
  match current_section st with
  | Some sec =>
      if truthy (Some sec) && nonempty (buffer st) then
        let full_text := PyStr.strip (PyStr.join " " (buffer st)) in
        if negb (dict_contains (readings_found st) sec) then
          <[sec := {| type := sec;
                      title := PyStr.title (PyStr.replace "_" " " sec);
                      reference := current_ref st;
                      text := full_text |}]> (readings_found st)
        else readings_found st
      else readings_found st
  | None => readings_found st
  end.

(** [for k in ordered_keys: if k in readings_found: readings.append(...)]. *)
Fixpoint emit (found : gmap string Reading) (keys : list string)
    (readings : list Reading) : result (list Reading) :=
  match keys with
  | [] => mret readings
  | k :: keys' =>
      if dict_contains found k then
        r ← dict_getitem found k;
        emit found keys' (readings ++ [r])
      else emit found keys' readings
  end.

(** The body of [get_liturgical_readings] from [buffer = []] to
    [return readings], as a function of [lines]. *)
Definition segment (lines : list string) : result (list Reading) :=
  st ← loop lines 0 lines init_state;
  emit (save_last st) ordered_keys [].

(** The enclosing [try ... except Exception: return []], given the outcome
    of fetching the page and flattening it into lines. *)
Definition get_liturgical_readings (fetched : result (list string))
  : list Reading :=
  match lines ← fetched; segment lines with
  | Ok readings => readings
  | Raise _ => []
  end.

(** The line feed on which [text_content] is cut. *)
Definition newline : ascii := ascii_of_N 10.

(** [lines = text_content.split('\n')] followed by the loop and the output:
    the body of [get_liturgical_readings] as a function of [text_content]. *)
Definition segment_text (text_content : string) : result (list Reading) :=
  let lines := PyStr.split newline text_content in
  segment lines.

(** ** The same code over a heap of objects

    The lists and dicts that the function creates and updates ([readings],
    [buffer], [readings_found] and the dict of each Reading) are objects of
    a heap, named by their location; the heap is what one call leaves to the
    next.  [keywords], [ordered_keys] and [lines] are only read and stay
    values. *)

(** What a list item or a dict value is: a [str] or a reference. *)
Inductive val : Type :=
| VStr (s : string)
| VRef (l : nat).

Inductive obj : Type :=
| OList (items : list val)
| ODict (entries : gmap string val).

(** How a statement ends: normally, with its value and the heap it leaves;
    with an exception; or [Stuck], on a name bound to no object or to one of
    the wrong kind, where the interpreter would raise a type error. *)
Inductive outcome (A : Type) : Type :=
| Done (a : A) (h : gmap nat obj)
| Raised (e : exn)
| Stuck.
Arguments Done {A} a h.
Arguments Raised {A} e.
Arguments Stuck {A}.

Definition Run (A : Type) : Type := gmap nat obj -> outcome A.

#[global] Instance Run_ret : MRet Run := fun A a h => Done a h.
#[global] Instance Run_bind : MBind Run := fun A B f m h =>
  match m h with
  | Done a h' => f a h'
  | Raised e => Raised e
  | Stuck => Stuck
  end.

(** A computation of the loop that touches no object. *)
Definition lift {A : Type} (m : result A) : Run A := fun h =>
  match m with
  | Ok a => Done a h
  | Raise e => Raised e
  end.

(** A new object, [[]] or [{...}], at a location not in use. *)
Definition alloc (o : obj) : Run nat := fun h =>
  let l := fresh (dom h) in Done l (<[l := o]> h).

(** The items of the list at [l]. *)
Definition list_items (l : nat) : Run (list val) := fun h =>
  match h !! l with
  | Some (OList items) => Done items h
  | _ => Stuck
  end.

(** [l.append(v)]. *)
Definition list_append (l : nat) (v : val) : Run unit := fun h =>
  match h !! l with
  | Some (OList items) => Done () (<[l := OList (items ++ [v])]> h)
  | _ => Stuck
  end.

(** The entries of the dict at [l]. *)
Definition dict_entries (l : nat) : Run (gmap string val) := fun h =>
  match h !! l with
  | Some (ODict entries) => Done entries h
  | _ => Stuck
  end.

(** [l[k] = v]. *)
Definition dict_setitem (l : nat) (k : string) (v : val) : Run unit := fun h =>
  match h !! l with
  | Some (ODict entries) => Done () (<[l := ODict (<[k := v]> entries)]> h)
  | _ => Stuck
  end.

(** The strings of a list about to be joined. *)
Fixpoint strings_of (items : list val) : Run (list string) :=
  match items with
  | [] => mret []
  | VStr s :: items' => rest ← strings_of items'; mret (s :: rest)
  | VRef _ :: _ => fun _ => Stuck
  end.

(** The names of the function, bound to locations or to values. *)
Record Frame : Type := mkFrame {
  fr_readings : nat;
  fr_buffer : nat;
  fr_current_section : option string;
  fr_current_ref : string;
  fr_readings_found : nat;
}.

(** The dict literal of a Reading. *)
Definition reading_entries (r : Reading) : gmap string val :=
  <["type" := VStr (type r)]>
    (<["title" := VStr (title r)]>
       (<["reference" := VStr (reference r)]>
          (<["text" := VStr (text r)]> ∅))).

(** Both blocks that save a section; they differ in the title, given here
    as a function of the section name. *)
Definition heap_save (title_of : string -> string) (fr : Frame) : Run unit :=
  match fr_current_section fr with
  | Some sec =>
      items ← list_items (fr_buffer fr);
      if truthy (Some sec) && nonempty items then
        buf ← strings_of items;
        let full_text := PyStr.strip (PyStr.join " " buf) in
        found ← dict_entries (fr_readings_found fr);
        if negb (bool_decide (is_Some (found !! sec))) then
          d ← alloc (ODict (reading_entries
                 {| type := sec; title := title_of sec;
                    reference := fr_current_ref fr; text := full_text |}));
          dict_setitem (fr_readings_found fr) sec (VRef d)
        else mret ()
      else mret ()
  | None => mret ()
  end.

(** One iteration of the loop. *)
Definition heap_step (lines : list string) (i : nat) (raw : string)
    (fr : Frame) : Run Frame :=
  let line := PyStr.strip raw in
  if String.eqb line "" then mret fr
  else
    let detected_type := detect keywords line in
    if truthy detected_type then
      _ ← heap_save (fun _ => line) fr;
      b ← alloc (OList []);
      ref ← lift (lookahead lines i);
      mret {| fr_readings := fr_readings fr; fr_buffer := b;
              fr_current_section := detected_type; fr_current_ref := ref;
              fr_readings_found := fr_readings_found fr |}
    else if truthy (fr_current_section fr) then
      if negb (String.eqb line (fr_current_ref fr)) then
        _ ← list_append (fr_buffer fr) (VStr line);
        mret fr
      else mret fr
    else mret fr.

Fixpoint heap_loop (lines : list string) (i : nat) (rest : list string)
    (fr : Frame) : Run Frame :=
  match rest with
  | [] => mret fr
  | raw :: rest' =>
      fr' ← heap_step lines i raw fr; heap_loop lines (S i) rest' fr'
  end.

(** The output loop: [readings.append(readings_found[k])]. *)
Fixpoint heap_emit (fr : Frame) (keys : list string) : Run unit :=
  match keys with
  | [] => mret ()
  | k :: keys' =>
      found ← dict_entries (fr_readings_found fr);
      if bool_decide (is_Some (found !! k)) then
        v ← lift (dict_getitem found k);
        _ ← list_append (fr_readings fr) v;
        heap_emit fr keys'
      else heap_emit fr keys'
  end.

(** The function from [readings = []] to [return readings], on the lines:
    it returns the location of the list. *)
Definition heap_segment (lines : list string) : Run nat :=
  readings ← alloc (OList []);
  buffer ← alloc (OList []);
  readings_found ← alloc (ODict ∅);
  fr ← heap_loop lines 0 lines
         {| fr_readings := readings; fr_buffer := buffer;
            fr_current_section := None; fr_current_ref := "";
            fr_readings_found := readings_found |};
  _ ← heap_save (fun sec => PyStr.title (PyStr.replace "_" " " sec)) fr;
  _ ← heap_emit fr ordered_keys;
  mret (fr_readings fr).

(** The Reading held by the dict that [v] refers to. *)
Definition read_reading (h : gmap nat obj) (v : val) : option Reading :=
  match v with
  | VRef l =>
      match h !! l with
      | Some (ODict d) =>
          match d !! "type", d !! "title", d !! "reference", d !! "text" with
          | Some (VStr ty), Some (VStr ti), Some (VStr re), Some (VStr te) =>
              Some {| type := ty; title := ti; reference := re; text := te |}
          | _, _, _, _ => None
          end
      | _ => None
      end
  | VStr _ => None
  end.

(** The list of Readings held by the list at [l]. *)
Definition read_readings (h : gmap nat obj) (l : nat) : option (list Reading) :=
  match h !! l with
  | Some (OList items) => mapM (read_reading h) items
  | _ => None
  end.

(** ** What the statements speak of *)

(** The concrete scenario of the specification. *)
Definition scenario : list string :=
  ["Intro boilerplate"; "Primera Lectura"; "Is 25, 6-10";
   "Texto de la primera lectura."; "Salmo Responsorial"; "Sal 22";
   "Texto del salmo."; "Evangelio"; "Mt 5, 1-12"; "Texto del evangelio."].

(** The same page with body lines that name no section. *)
Definition scenario_plain : list string :=
  ["Intro boilerplate"; "Primera Lectura"; "Is 25, 6-10";
   "Texto de la profecia."; "Salmo Responsorial"; "Sal 22";
   "Texto del salmo."; "Evangelio"; "Mt 5, 1-12"; "Texto de la buena nueva."].

(** A string that is not empty and starts with a character that is not
    white space: what [strip] leaves of a line that is not blank. *)
Definition visible (s : string) : Prop :=
  exists c r, s = String c r /\ PyStr.isspace c = false.

(** What the lookahead leaves in [current_ref], given [lines[i+1]] if any. *)
Definition next_reference (next : option string) : string :=
  match next with
  | Some x => if PyStr.any_isdigit (PyStr.strip x) then PyStr.strip x else ""
  | None => ""
  end.

(** The classifier does not take [raw] for a header. *)
Definition not_header (raw : string) : Prop :=
  detect keywords (PyStr.strip raw) = None.

(** The lines of [body] that reach the buffer of a section whose reference
    is [ref]: stripped, the blank ones and those equal to [ref] left out. *)
Definition body_lines (ref : string) (body : list string) : list string :=
  filter (fun x => x <> "" /\ x <> ref) (PyStr.strip <$> body).

(** The state with [xs] appended to the buffer. *)
Definition buffered (st : State) (xs : list string) : State :=
  {| buffer := buffer st ++ xs;
     current_section := current_section st;
     current_ref := current_ref st;
     readings_found := readings_found st |}.

(** Every entry of the dict is filed under its own type, one of the four,
    and has a text. *)
Definition recorded_ok (found : gmap string Reading) : Prop :=
  forall k r, found !! k = Some r ->
    type r = k /\ k ∈ ordered_keys /\ text r <> "".

(** What every iteration of the loop keeps true of the local variables. *)
Definition state_ok (st : State) : Prop :=
  recorded_ok (readings_found st) /\
  Forall visible (buffer st) /\
  (forall sec, current_section st = Some sec -> sec ∈ ordered_keys).

(** The phrase [key] occurs in [line] up to case: some contiguous part of
    [line] has the lower-case form of [key]. *)
Definition occurs_ci (key line : string) : Prop :=
  exists pre mid post,
    line = pre +:+ mid +:+ post /\ PyStr.lower mid = PyStr.lower key.

(** The title given at the end of the input to a section named [sec]. *)
Definition default_title (sec : string) : string :=
  PyStr.title (PyStr.replace "_" " " sec).

(** Every recorded title is a header line of [lines], stripped, or the
    default title of the section. *)
Definition titled (lines : list string) (found : gmap string Reading) : Prop :=
  forall k r, found !! k = Some r ->
    (exists raw, raw ∈ lines /\ ~ not_header raw /\ title r = PyStr.strip raw) \/
    title r = default_title (type r).

(** No section named [sec] has been opened or recorded so far. *)
Definition untouched (sec : string) (st : State) : Prop :=
  readings_found st !! sec = None /\ current_section st <> Some sec.

(** A string that [strip] leaves as it is. *)
Definition trimmed (s : string) : Prop := PyStr.strip s = s.

(** A line as it stands in the buffer: stripped, not blank, not a header. *)
Definition body_line (x : string) : Prop :=
  x <> "" /\ trimmed x /\ detect keywords x = None.

(** A reference is empty or the stripped form of a line of the input that
    holds a digit. *)
Definition reference_from (lines : list string) (ref : string) : Prop :=
  ref = "" \/
  exists raw, raw ∈ lines /\ ref = PyStr.strip raw /\
              PyStr.any_isdigit ref = true.

(** A text is the join, by single spaces, of body lines of the input taken
    in their order, none of them the reference [ref]. *)
Definition text_from (lines : list string) (ref txt : string) : Prop :=
  exists buf,
    buf <> [] /\ buf `sublist_of` (PyStr.strip <$> lines) /\
    Forall body_line buf /\ Forall (fun x => x <> ref) buf /\
    txt = PyStr.join " " buf.

(** Some line of the input is a header for the section [sec]. *)
Definition header_in (lines : list string) (sec : string) : Prop :=
  exists raw, raw ∈ lines /\ detect keywords (PyStr.strip raw) = Some sec.

(** Where the locals and the recorded Readings come from, once the lines
    [done] of the input [lines] have been read. *)
Definition sourced (lines done : list string) (st : State) : Prop :=
  buffer st `sublist_of` (PyStr.strip <$> done) /\
  Forall body_line (buffer st) /\
  Forall (fun x => x <> current_ref st) (buffer st) /\
  reference_from lines (current_ref st) /\
  (forall sec, current_section st = Some sec -> header_in done sec) /\
  (forall k r, readings_found st !! k = Some r ->
     text_from done (reference r) (text r) /\
     reference_from lines (reference r) /\ header_in done k).

(** The block that saves a section, on the values: [save_previous] and
    [save_last] are its two instances. *)
Definition save_with (title_of : string -> string) (st : State)
  : gmap string Reading :=
  match current_section st with
  | Some sec =>
      if truthy (Some sec) && nonempty (buffer st) then
        let full_text := PyStr.strip (PyStr.join " " (buffer st)) in
        if negb (dict_contains (readings_found st) sec) then
          <[sec := {| type := sec; title := title_of sec;
                      reference := current_ref st;
                      text := full_text |}]> (readings_found st)
        else readings_found st
      else readings_found st
  | None => readings_found st
  end.

(** The dict at [rf], whose values are the locations [m], holds the
    Readings [found], each in an object made since the heap was [h0]. *)
Definition recorded (h0 h : gmap nat obj) (rf : nat) (m : gmap string nat)
    (found : gmap string Reading) : Prop :=
  forall k,
    match m !! k with
    | Some l =>
        exists r, found !! k = Some r /\
          h !! l = Some (ODict (reading_entries r)) /\
          h0 !! l = None /\ l <> rf
    | None => found !! k = None
    end.

(** The heap [h], reached from [h0], and the names [fr] hold the values of
    the locals [st]: every object of [h0] is as it was, and the objects the
    names refer to were all made since. *)
Definition sim (h0 h : gmap nat obj) (fr : Frame) (st : State) : Prop :=
  h0 ⊆ h /\
  fr_current_section fr = current_section st /\
  fr_current_ref fr = current_ref st /\
  h0 !! fr_readings fr = None /\
  h !! fr_readings fr = Some (OList []) /\
  h0 !! fr_buffer fr = None /\
  h !! fr_buffer fr = Some (OList (VStr <$> buffer st)) /\
  fr_buffer fr <> fr_readings fr /\
  h0 !! fr_readings_found fr = None /\
  exists m,
    h !! fr_readings_found fr = Some (ODict (VRef <$> m)) /\
    recorded h0 h (fr_readings_found fr) m (readings_found st).

(** The state with another dict of Readings. *)
Definition with_found (st : State) (found : gmap string Reading) : State :=
  {| buffer := buffer st; current_section := current_section st;
     current_ref := current_ref st; readings_found := found |}.

(** The items of a list refer, one by one, to dicts that hold the Readings
    [out]. *)
Definition listed (h : gmap nat obj) (items : list val) (out : list Reading)
  : Prop :=
  Forall2 (fun v r => exists l,
             v = VRef l /\ h !! l = Some (ODict (reading_entries r)))
          items out.

(** ** Facts about the string methods *)

Module PyStrFacts.
Import PyStr.

#[local] Arguments String.append !_ _ / : simpl nomatch.

Lemma prefix_spec (sub s : string) :
  String.prefix sub s = true <-> exists post, s = sub +:+ post.
Proof.
  revert s; induction sub as [|a sub IH]; intros [|b s]; simpl.
  - split; [intros _; exists ""; reflexivity | reflexivity].
  - split; [intros _; exists (String b s); reflexivity | reflexivity].
  - split; [discriminate | intros [post Hp]; discriminate].
  - destruct (ascii_dec a b) as [->|Hne].
    + rewrite IH. split; intros [post Hp]; exists post; congruence.
    + split; [discriminate | intros [post Hp]; congruence].
Qed.

Lemma contains_nil (sub : string) :
  contains "" sub = String.prefix sub "" || false.
Proof. reflexivity. Qed.

Lemma contains_cons (c : ascii) (s sub : string) :
  contains (String c s) sub = String.prefix sub (String c s) || contains s sub.
Proof. reflexivity. Qed.

Lemma contains_spec (s sub : string) :
  contains s sub = true <-> exists pre post, s = pre +:+ sub +:+ post.
Proof.
  induction s as [|c s IH].
  - rewrite contains_nil, orb_false_r, prefix_spec. split.
    + intros [post Hp]. exists "", post. exact Hp.
    + intros [pre [post Hp]]. destruct pre; simpl in Hp;
        [exists post; exact Hp | discriminate].
  - rewrite contains_cons, orb_true_iff, prefix_spec, IH. split.
    + intros [[post Hp] | [pre [post Hp]]].
      * exists "", post. exact Hp.
      * exists (String c pre), post. simpl. by rewrite Hp.
    + intros [pre [post Hp]]. destruct pre as [|x pre]; simpl in Hp.
      * left. exists post. exact Hp.
      * right. exists pre, post. congruence.
Qed.

Lemma lower_app (a b : string) : lower (a +:+ b) = lower a +:+ lower b.
Proof. induction a as [|x a IH]; simpl; congruence. Qed.

Lemma lower_app_inv (s a b : string) :
  lower s = a +:+ b -> exists a' b', s = a' +:+ b' /\ lower a' = a /\ lower b' = b.
Proof.
  revert s; induction a as [|x a IH]; intros s Hs; simpl in Hs.
  - by exists "", s.
  - destruct s as [|c s]; simpl in Hs; [done|].
    injection Hs as Hc Hs. destruct (IH _ Hs) as (a' & b' & -> & <- & <-).
    exists (String c a'), b'. simpl. by rewrite Hc.
Qed.

Lemma lstrip_visible (s : string) : lstrip s = "" \/ visible (lstrip s).
Proof.
  induction s as [|c s IH]; simpl; [by left|].
  destruct (isspace c) eqn:Hc; [exact IH|]. right. by exists c, s.
Qed.

Lemma rstrip_cons (c : ascii) (s : string) :
  isspace c = false -> rstrip (String c s) = String c (rstrip s).
Proof. intros Hc. simpl. rewrite Hc. by destruct (rstrip s). Qed.

Lemma strip_visible (s : string) : strip s <> "" -> visible (strip s).
Proof.
  unfold strip. intros Hne.
  destruct (lstrip_visible s) as [He | (c & r & He & Hc)].
  - rewrite He in Hne. done.
  - rewrite He, (rstrip_cons _ _ Hc). by exists c, (rstrip r).
Qed.

Lemma visible_nonempty (s : string) : visible s -> s <> "".
Proof. intros (c & r & -> & _). done. Qed.

Lemma join_visible (sep x : string) (xs : list string) :
  visible x -> visible (join sep (x :: xs)).
Proof.
  intros (c & r & -> & Hc). unfold join. simpl.
  destruct xs; [by exists c, r|]. simpl. by eexists c, _.
Qed.

Lemma strip_of_visible (s : string) : visible s -> visible (strip s).
Proof.
  intros (c & r & -> & Hc). unfold strip. simpl lstrip. rewrite Hc.
  rewrite (rstrip_cons _ _ Hc). by exists c, (rstrip r).
Qed.

End PyStrFacts.

(** ** Facts about the loop *)

Lemma bind_Ok {A B : Type} (f : A -> result B) (a : A) : (Ok a ≫= f) = f a.
Proof. reflexivity. Qed.

Lemma detect_blank : detect keywords "" = None.
Proof. reflexivity. Qed.

Lemma detect_keywords_values (line val : string) :
  detect keywords line = Some val -> val ∈ ordered_keys.
Proof.
  unfold keywords, ordered_keys. simpl. intros H.
  repeat case_match; simplify_eq; set_solver.
Qed.

Lemma ordered_keys_truthy (k : string) : k ∈ ordered_keys -> truthy (Some k) = true.
Proof.
  unfold ordered_keys. rewrite !elem_of_cons, elem_of_nil.
  intros [->|[->|[->|[->|[]]]]]; reflexivity.
Qed.

Lemma truthy_detect (line : string) :
  truthy (detect keywords line) = bool_decide (is_Some (detect keywords line)).
Proof.
  destruct (detect keywords line) as [val|] eqn:Hd.
  - rewrite (ordered_keys_truthy val) by eauto using detect_keywords_values.
    symmetry. apply bool_decide_eq_true. by eexists.
  - symmetry. apply bool_decide_eq_false. by intros [? ?].
Qed.

Lemma lookahead_eq (lines : list string) (i : nat) :
  lookahead lines i = Ok (next_reference (lines !! (i + 1))).
Proof.
  unfold lookahead, list_getitem, next_reference. case_bool_decide as Hlt.
  - destruct (lookup_lt_is_Some_2 lines (i + 1) Hlt) as [x Hx].
    rewrite Hx. simpl. by destruct (PyStr.any_isdigit _).
  - rewrite (lookup_ge_None_2 lines (i + 1)) by lia. done.
Qed.

Lemma step_blank lines i raw st :
  PyStr.strip raw = "" -> step lines i raw st = Ok st.
Proof. unfold step. intros ->. reflexivity. Qed.

Lemma step_header lines i raw st val :
  detect keywords (PyStr.strip raw) = Some val ->
  step lines i raw st =
    Ok {| buffer := []; current_section := Some val;
          current_ref := next_reference (lines !! (i + 1));
          readings_found := save_previous (PyStr.strip raw) st |}.
Proof.
  intros Hd. unfold step.
  destruct (String.eqb_spec (PyStr.strip raw) "") as [He|_].
  { rewrite He, detect_blank in Hd. done. }
  rewrite truthy_detect, Hd, bool_decide_eq_true_2 by by eexists.
  rewrite lookahead_eq. reflexivity.
Qed.

Lemma step_body lines i raw st :
  PyStr.strip raw <> "" ->
  detect keywords (PyStr.strip raw) = None ->
  step lines i raw st =
    Ok (if truthy (current_section st) then
          if decide (PyStr.strip raw = current_ref st) then st
          else {| buffer := buffer st ++ [PyStr.strip raw];
                  current_section := current_section st;
                  current_ref := current_ref st;
                  readings_found := readings_found st |}
        else st).
Proof.
  intros Hne Hd. unfold step.
  destruct (String.eqb_spec (PyStr.strip raw) "") as [|_]; [done|].
  rewrite Hd. simpl. destruct (truthy (current_section st)); [|done].
  destruct (String.eqb_spec (PyStr.strip raw) (current_ref st)) as [He|Hn];
    case_decide; done.
Qed.

Lemma step_ok lines i raw st : exists st', step lines i raw st = Ok st'.
Proof.
  destruct (decide (PyStr.strip raw = "")) as [He|Hne].
  - rewrite step_blank by done. by eexists.
  - destruct (detect keywords (PyStr.strip raw)) as [val|] eqn:Hd.
    + erewrite step_header by done. by eexists.
    + rewrite step_body by done. by eexists.
Qed.

Lemma loop_app lines i (xs ys : list string) st :
  loop lines i (xs ++ ys) st =
    (loop lines i xs st ≫= loop lines (i + length xs) ys).
Proof.
  revert i st; induction xs as [|x xs IH]; intros i st; simpl.
  - by rewrite Nat.add_0_r.
  - destruct (step lines i x st) as [st'|e]; simpl; [|done].
    rewrite IH. by replace (S i + length xs) with (i + S (length xs)) by lia.
Qed.

Lemma loop_ok lines i rest st : exists st', loop lines i rest st = Ok st'.
Proof.
  revert i st; induction rest as [|raw rest IH]; intros i st; simpl.
  - by eexists.
  - destruct (step_ok lines i raw st) as [st1 ->]. simpl. apply IH.
Qed.

(** An invariant of the iterations holds after the loop. *)
Lemma loop_invariant (P : State -> Prop) lines rest i st st' :
  (forall j raw s s', raw ∈ rest -> P s -> step lines j raw s = Ok s' -> P s') ->
  P st -> loop lines i rest st = Ok st' -> P st'.
Proof.
  revert i st; induction rest as [|raw rest IH]; intros i st Hstep HP; simpl.
  - by intros [= <-].
  - destruct (step lines i raw st) as [st1|e] eqn:Hs; simpl; [|done].
    apply IH.
    + intros j raw' s s' Hin. apply Hstep. by right.
    + eapply Hstep; [by left | done | done].
Qed.

(** *** Recording a section *)

Lemma dict_contains_true {V : Type} (d : gmap string V) (k : string) :
  dict_contains d k = true <-> is_Some (d !! k).
Proof. unfold dict_contains. apply bool_decide_eq_true. Qed.

Lemma dict_contains_false {V : Type} (d : gmap string V) (k : string) :
  dict_contains d k = false <-> d !! k = None.
Proof.
  unfold dict_contains. rewrite bool_decide_eq_false. symmetry.
  apply eq_None_not_Some.
Qed.

Lemma nonempty_true {A : Type} (l : list A) : nonempty l = true <-> l <> [].
Proof. by destruct l. Qed.

(** The case analysis of the two blocks that save a section. *)
Ltac case_save st :=
  unfold save_previous, save_last;
  let sec := fresh "sec" in
  let Hsec := fresh "Hsec" in
  let Hbuf := fresh "Hbuf" in
  let Hin := fresh "Hin" in
  destruct (current_section st) as [sec|] eqn:Hsec;
    [destruct (truthy (Some sec) && nonempty (buffer st)) eqn:Hbuf;
       [apply andb_true_iff in Hbuf;
        destruct (dict_contains (readings_found st) sec) eqn:Hin; simpl
       | simpl]
    | simpl].

Lemma save_previous_keeps line st k r :
  readings_found st !! k = Some r -> save_previous line st !! k = Some r.
Proof.
  intros Hk. case_save st; try done.
  apply dict_contains_false in Hin.
  rewrite lookup_insert_ne; [done | congruence].
Qed.

Lemma save_last_keeps st k r :
  readings_found st !! k = Some r -> save_last st !! k = Some r.
Proof.
  intros Hk. case_save st; try done.
  apply dict_contains_false in Hin.
  rewrite lookup_insert_ne; [done | congruence].
Qed.

Lemma save_previous_other line st k :
  current_section st <> Some k ->
  save_previous line st !! k = readings_found st !! k.
Proof.
  intros Hk. case_save st; try done.
  rewrite lookup_insert_ne; [done | congruence].
Qed.

Lemma save_previous_new line st sec :
  current_section st = Some sec -> truthy (Some sec) = true ->
  buffer st <> [] -> readings_found st !! sec = None ->
  save_previous line st !! sec =
    Some {| type := sec; title := line; reference := current_ref st;
            text := PyStr.strip (PyStr.join " " (buffer st)) |}.
Proof.
  intros Hs Ht Hb Hn. unfold save_previous. rewrite Hs, Ht.
  apply nonempty_true in Hb. rewrite Hb. simpl.
  apply dict_contains_false in Hn. rewrite Hn. simpl.
  apply lookup_insert_eq.
Qed.

Lemma save_last_new st sec :
  current_section st = Some sec -> truthy (Some sec) = true ->
  buffer st <> [] -> readings_found st !! sec = None ->
  save_last st !! sec =
    Some {| type := sec;
            title := PyStr.title (PyStr.replace "_" " " sec);
            reference := current_ref st;
            text := PyStr.strip (PyStr.join " " (buffer st)) |}.
Proof.
  intros Hs Ht Hb Hn. unfold save_last. rewrite Hs, Ht.
  apply nonempty_true in Hb. rewrite Hb. simpl.
  apply dict_contains_false in Hn. rewrite Hn. simpl.
  apply lookup_insert_eq.
Qed.

Lemma save_previous_empty line st :
  buffer st = [] -> save_previous line st = readings_found st.
Proof.
  intros Hb. unfold save_previous. rewrite Hb. simpl.
  destruct (current_section st); [by rewrite andb_false_r | done].
Qed.

Lemma save_last_empty st : buffer st = [] -> save_last st = readings_found st.
Proof.
  intros Hb. unfold save_last. rewrite Hb. simpl.
  destruct (current_section st); [by rewrite andb_false_r | done].
Qed.

(** *** The ordered output *)

Lemma emit_eq (found : gmap string Reading) (keys : list string)
    (readings : list Reading) :
  emit found keys readings = Ok (readings ++ omap (found !!.) keys).
Proof.
  revert readings; induction keys as [|k keys IH]; intros readings; simpl.
  - by rewrite app_nil_r.
  - unfold dict_getitem.
    destruct (found !! k) as [r|] eqn:Hk.
    + rewrite (proj2 (dict_contains_true found k)) by by eexists.
      simpl. rewrite IH, <- app_assoc. done.
    + rewrite (proj2 (dict_contains_false found k)) by done. apply IH.
Qed.

Lemma segment_eq (lines : list string) :
  exists st, loop lines 0 lines init_state = Ok st /\
             segment lines = Ok (omap (save_last st !!.) ordered_keys).
Proof.
  destruct (loop_ok lines 0 lines init_state) as [st Hst].
  exists st. split; [done|]. unfold segment.
  by rewrite Hst, bind_Ok, emit_eq.
Qed.

Lemma omap_types (found : gmap string Reading) (keys : list string) :
  (forall k r, found !! k = Some r -> type r = k) ->
  type <$> omap (found !!.) keys = filter (fun k => is_Some (found !! k)) keys.
Proof.
  intros Hty. induction keys as [|k keys IH]; simpl; [done|].
  destruct (found !! k) as [r|] eqn:Hk.
  - rewrite filter_cons_True by by eexists. simpl.
    f_equal; [by apply Hty | exact IH].
  - rewrite filter_cons_False; [done|]. rewrite Hk. by intros [? ?].
Qed.

Lemma NoDup_ordered_keys : NoDup ordered_keys.
Proof. compute_done. Qed.

(** *** What holds of every recorded Reading *)

Lemma text_nonempty (buf : list string) :
  Forall visible buf -> buf <> [] ->
  PyStr.strip (PyStr.join " " buf) <> "".
Proof.
  intros Hv Hne. destruct buf as [|x xs]; [done|].
  apply PyStrFacts.visible_nonempty, PyStrFacts.strip_of_visible,
    PyStrFacts.join_visible.
  by inversion Hv.
Qed.

Lemma save_previous_ok line st : state_ok st -> recorded_ok (save_previous line st).
Proof.
  intros (Hr & Hb & Hs). case_save st; try done.
  intros k r. destruct (decide (k = sec)) as [->|Hne].
  - rewrite lookup_insert_eq. intros [= <-]. simpl.
    split_and!; [done | by apply Hs |].
    apply text_nonempty; [done | by apply nonempty_true, Hbuf].
  - rewrite lookup_insert_ne by done. apply Hr.
Qed.

Lemma save_last_ok st : state_ok st -> recorded_ok (save_last st).
Proof.
  intros (Hr & Hb & Hs). case_save st; try done.
  intros k r. destruct (decide (k = sec)) as [->|Hne].
  - rewrite lookup_insert_eq. intros [= <-]. simpl.
    split_and!; [done | by apply Hs |].
    apply text_nonempty; [done | by apply nonempty_true, Hbuf].
  - rewrite lookup_insert_ne by done. apply Hr.
Qed.

Lemma init_state_ok : state_ok init_state.
Proof.
  split_and!; [| constructor | done].
  intros k r Hk. simpl in Hk. by rewrite lookup_empty in Hk.
Qed.

Lemma step_state_ok lines i raw st st' :
  state_ok st -> step lines i raw st = Ok st' -> state_ok st'.
Proof.
  intros Hok. destruct (decide (PyStr.strip raw = "")) as [He|Hne].
  { rewrite step_blank by done. by intros [= <-]. }
  destruct (detect keywords (PyStr.strip raw)) as [val|] eqn:Hd.
  - erewrite step_header by done. intros [= <-].
    split_and!; simpl; [by apply save_previous_ok | constructor |].
    intros sec [= <-]. eauto using detect_keywords_values.
  - rewrite step_body by done. intros [= <-].
    destruct (truthy (current_section st)); [|done].
    case_decide; [done|]. destruct Hok as (Hr & Hb & Hs).
    split_and!; simpl; [done | | done].
    apply Forall_app. split; [done|].
    constructor; [|constructor]. by apply PyStrFacts.strip_visible.
Qed.

Lemma loop_state_ok lines i rest st st' :
  state_ok st -> loop lines i rest st = Ok st' -> state_ok st'.
Proof.
  apply (loop_invariant state_ok). intros j raw s s' _.
  apply step_state_ok.
Qed.

(** The Output Sequence is the recorded Readings taken in the fixed order,
    each well formed. *)
Lemma segment_shape (lines : list string) :
  exists found,
    segment lines = Ok (omap (found !!.) ordered_keys) /\ recorded_ok found.
Proof.
  destruct (segment_eq lines) as (st & Hloop & Hseg).
  exists (save_last st). split; [done|].
  apply save_last_ok. eapply loop_state_ok; [apply init_state_ok | done].
Qed.

(** *** A run of lines that are not headers *)

Lemma buffered_nil st : buffered st [] = st.
Proof. destruct st. unfold buffered. simpl. by rewrite app_nil_r. Qed.

Lemma buffered_app st xs ys : buffered (buffered st xs) ys = buffered st (xs ++ ys).
Proof. unfold buffered. simpl. by rewrite app_assoc. Qed.

Lemma body_lines_cons ref raw body :
  body_lines ref (raw :: body) =
    (if decide (PyStr.strip raw <> "" /\ PyStr.strip raw <> ref)
     then [PyStr.strip raw] else []) ++ body_lines ref body.
Proof.
  unfold body_lines. rewrite fmap_cons, filter_cons. by case_decide.
Qed.

Lemma loop_body lines i body st :
  Forall not_header body ->
  loop lines i body st =
    Ok (if truthy (current_section st)
        then buffered st (body_lines (current_ref st) body) else st).
Proof.
  intros Hb. revert i st.
  induction Hb as [|raw body Hraw Hbody IH]; intros i st.
  - simpl. destruct (truthy _); [by rewrite buffered_nil | done].
  - cbn [loop]. rewrite body_lines_cons.
    destruct (decide (PyStr.strip raw = "")) as [He|Hne].
    + rewrite step_blank, bind_Ok, IH by done.
      rewrite decide_False by (intros [? _]; done). done.
    + rewrite step_body, bind_Ok by done.
      destruct (truthy (current_section st)) eqn:Ht; [|by rewrite IH, Ht].
      destruct (decide (PyStr.strip raw = current_ref st)) as [Hr|Hr].
      * rewrite IH, Ht. rewrite decide_False by (intros [_ ?]; done). done.
      * rewrite IH. simpl. rewrite Ht.
        rewrite decide_True by done. by rewrite <- buffered_app.
Qed.

Lemma loop_no_header lines i body :
  Forall not_header body -> loop lines i body init_state = Ok init_state.
Proof. intros Hb. by rewrite loop_body. Qed.

Lemma step_keeps lines i raw st st' k r :
  readings_found st !! k = Some r -> step lines i raw st = Ok st' ->
  readings_found st' !! k = Some r.
Proof.
  intros Hk. destruct (decide (PyStr.strip raw = "")) as [He|Hne].
  { rewrite step_blank by done. by intros [= <-]. }
  destruct (detect keywords (PyStr.strip raw)) as [val|] eqn:Hd.
  - erewrite step_header by done. intros [= <-]. simpl.
    by apply save_previous_keeps.
  - rewrite step_body by done. intros [= <-].
    destruct (truthy _); [case_decide|]; done.
Qed.

Lemma loop_keeps lines i rest st st' k r :
  readings_found st !! k = Some r -> loop lines i rest st = Ok st' ->
  readings_found st' !! k = Some r.
Proof.
  apply (loop_invariant (fun s => readings_found s !! k = Some r)).
  intros j raw s s' _ Hs. by apply step_keeps.
Qed.

Lemma step_empty_buffer lines i raw st st' :
  buffer st = [] -> step lines i raw st = Ok st' ->
  readings_found st' = readings_found st.
Proof.
  intros Hb. destruct (decide (PyStr.strip raw = "")) as [He|Hne].
  { rewrite step_blank by done. by intros [= <-]. }
  destruct (detect keywords (PyStr.strip raw)) as [val|] eqn:Hd.
  - erewrite step_header by done. intros [= <-]. simpl.
    by apply save_previous_empty.
  - rewrite step_body by done. intros [= <-].
    destruct (truthy _); [case_decide|]; done.
Qed.

Lemma is_header_detect (raw : string) :
  ~ not_header raw -> exists val, detect keywords (PyStr.strip raw) = Some val.
Proof.
  unfold not_header. destruct (detect keywords (PyStr.strip raw)); [eauto|done].
Qed.

Lemma detect_truthy (line val : string) :
  detect keywords line = Some val -> truthy (Some val) = true.
Proof. intros Hd. eauto using ordered_keys_truthy, detect_keywords_values. Qed.

(** *** The classifier *)

Lemma contains_lower_iff (key line : string) :
  PyStr.contains (PyStr.lower line) (PyStr.lower key) = true <->
  occurs_ci key line.
Proof.
  rewrite PyStrFacts.contains_spec. split.
  - intros (pre & post & Hl).
    apply PyStrFacts.lower_app_inv in Hl as (pre' & rest & -> & Hpre & Hrest).
    apply PyStrFacts.lower_app_inv in Hrest as (mid & post' & -> & Hmid & Hpost).
    by exists pre', mid, post'.
  - intros (pre & mid & post & -> & Hmid).
    exists (PyStr.lower pre), (PyStr.lower post).
    by rewrite !PyStrFacts.lower_app, Hmid.
Qed.

Lemma detect_Some_iff (kws : list (string * string)) (line val : string) :
  detect kws line = Some val <->
  exists n key,
    kws !! n = Some (key, val) /\ occurs_ci key line /\
    forall m kv, m < n -> kws !! m = Some kv -> ~ occurs_ci kv.1 line.
Proof.
  induction kws as [|[key0 val0] kws IH]; simpl.
  - split; [done | by intros (n & key & Hn & _)].
  - destruct (PyStr.contains (PyStr.lower line) (PyStr.lower key0)) eqn:Hc.
    + apply contains_lower_iff in Hc. split.
      * intros [= <-]. exists 0, key0. split_and!; [done | done | lia].
      * intros (n & key & Hn & Hocc & Hfirst). destruct n as [|n].
        { by injection Hn as _ ->. }
        exfalso. apply (Hfirst 0 (key0, val0)); [lia | done | done].
    + assert (Hno : ~ occurs_ci key0 line).
      { rewrite <- contains_lower_iff, Hc. done. }
      rewrite IH. split.
      * intros (n & key & Hn & Hocc & Hfirst). exists (S n), key.
        split_and!; [done | done |].
        intros [|m] kv Hm Hkv; [by injection Hkv as <- |].
        apply (Hfirst m); [lia | done].
      * intros (n & key & Hn & Hocc & Hfirst). destruct n as [|n].
        { injection Hn as -> _. done. }
        exists n, key. split_and!; [done | done |].
        intros m kv Hm Hkv. apply (Hfirst (S m)); [lia | done].
Qed.

Lemma detect_None_iff (kws : list (string * string)) (line : string) :
  detect kws line = None <->
  forall key val, (key, val) ∈ kws -> ~ occurs_ci key line.
Proof.
  induction kws as [|[key0 val0] kws IH]; simpl.
  - split; [intros _ key val Hin; by apply elem_of_nil in Hin | done].
  - destruct (PyStr.contains (PyStr.lower line) (PyStr.lower key0)) eqn:Hc.
    + apply contains_lower_iff in Hc. split; [done|].
      intros Hall. exfalso. apply (Hall key0 val0); [by left | done].
    + rewrite IH. split.
      * intros Hall key val [[= -> ->]|Hin]%elem_of_cons; [|by eapply Hall].
        rewrite <- contains_lower_iff, Hc. done.
      * intros Hall key val Hin. apply (Hall key val). by right.
Qed.

(** *** Where a title comes from *)

Lemma save_previous_titled lines raw st :
  raw ∈ lines -> ~ not_header raw -> titled lines (readings_found st) ->
  titled lines (save_previous (PyStr.strip raw) st).
Proof.
  intros Hin Hh Ht. case_save st; try done.
  intros k r. destruct (decide (k = sec)) as [->|Hne].
  - rewrite lookup_insert_eq. intros [= <-]. left. by exists raw.
  - rewrite lookup_insert_ne by done. apply Ht.
Qed.

Lemma save_last_titled lines st :
  titled lines (readings_found st) -> titled lines (save_last st).
Proof.
  intros Ht. case_save st; try done.
  intros k r. destruct (decide (k = sec)) as [->|Hne].
  - rewrite lookup_insert_eq. intros [= <-]. by right.
  - rewrite lookup_insert_ne by done. apply Ht.
Qed.

Lemma step_titled lines i raw st st' :
  raw ∈ lines -> titled lines (readings_found st) ->
  step lines i raw st = Ok st' -> titled lines (readings_found st').
Proof.
  intros Hin Ht. destruct (decide (PyStr.strip raw = "")) as [He|Hne].
  { rewrite step_blank by done. by intros [= <-]. }
  destruct (detect keywords (PyStr.strip raw)) as [val|] eqn:Hd.
  - erewrite step_header by done. intros [= <-]. simpl.
    apply save_previous_titled; [done | | done].
    unfold not_header. by rewrite Hd.
  - rewrite step_body by done. intros [= <-].
    destruct (truthy _); [case_decide|]; done.
Qed.

(** *** Closing a section *)

Lemma close_by_header lines i raw st sec :
  current_section st = Some sec -> truthy (Some sec) = true ->
  buffer st <> [] -> readings_found st !! sec = None ->
  ~ not_header raw ->
  exists st',
    step lines i raw st = Ok st' /\
    readings_found st' !! sec =
      Some {| type := sec; title := PyStr.strip raw;
              reference := current_ref st;
              text := PyStr.strip (PyStr.join " " (buffer st)) |}.
Proof.
  intros Hsec Ht Hbuf Hnew Hh.
  apply is_header_detect in Hh as [val Hval].
  rewrite (step_header _ _ _ _ _ Hval). eexists. split; [reflexivity|].
  simpl. by apply save_previous_new.
Qed.

Lemma step_untouched lines i raw st st' sec :
  detect keywords (PyStr.strip raw) <> Some sec ->
  untouched sec st -> step lines i raw st = Ok st' -> untouched sec st'.
Proof.
  intros Hd [Hnew Hcur]. destruct (decide (PyStr.strip raw = "")) as [He|Hne].
  { rewrite step_blank by done. by intros [= <-]. }
  destruct (detect keywords (PyStr.strip raw)) as [val|] eqn:Hval.
  - erewrite step_header by done. intros [= <-]. split; simpl.
    + by rewrite save_previous_other.
    + congruence.
  - rewrite step_body by done. intros [= <-].
    destruct (truthy _); [case_decide|]; done.
Qed.

Lemma loop_untouched lines i rest st st' sec :
  Forall (fun raw => detect keywords (PyStr.strip raw) <> Some sec) rest ->
  untouched sec st -> loop lines i rest st = Ok st' -> untouched sec st'.
Proof.
  intros Hrest. rewrite Forall_forall in Hrest.
  apply (loop_invariant (untouched sec)).
  intros j raw s s' Hin. apply step_untouched. by apply Hrest.
Qed.

(** The first section named [sec] that gathers a body before the next
    header is the one recorded, whatever follows. *)
Lemma loop_first_section lines pre h1 body h2 rest sec st :
  Forall (fun raw => detect keywords (PyStr.strip raw) <> Some sec) pre ->
  detect keywords (PyStr.strip h1) = Some sec ->
  Forall not_header body -> ~ not_header h2 ->
  body_lines (next_reference (lines !! (length pre + 1))) body <> [] ->
  loop lines 0 (pre ++ h1 :: body ++ h2 :: rest) init_state = Ok st ->
  readings_found st !! sec =
    Some {| type := sec; title := PyStr.strip h2;
            reference := next_reference (lines !! (length pre + 1));
            text := PyStr.strip (PyStr.join " "
                      (body_lines (next_reference (lines !! (length pre + 1)))
                                  body)) |}.
Proof.
  intros Hpre Hh1 Hbody Hh2 Hbuf Hloop.
  rewrite loop_app in Hloop.
  destruct (loop lines 0 pre init_state) as [st0|] eqn:Hst0; [|done].
  rewrite bind_Ok in Hloop. cbn [loop] in Hloop.
  apply (loop_untouched _ _ _ _ _ sec Hpre) in Hst0 as [Hnew Hcur];
    [|split; [apply lookup_empty | done]].
  rewrite (step_header _ _ _ _ _ Hh1), bind_Ok, loop_app in Hloop.
  rewrite (loop_body _ _ _ _ Hbody), bind_Ok in Hloop.
  cbn [current_section current_ref] in Hloop.
  rewrite (detect_truthy _ _ Hh1) in Hloop. cbn [loop] in Hloop.
  replace (0 + length pre + 1) with (length pre + 1) in * by lia.
  set (ref := next_reference (lines !! (length pre + 1))) in *.
  set (st2 := buffered _ _) in Hloop.
  destruct (close_by_header lines (S (0 + length pre) + length body) h2
              st2 sec) as (st3 & Hst3 & Hrec); try done.
  { by apply detect_truthy in Hh1. }
  { unfold st2; simpl. by rewrite save_previous_other. }
  rewrite Hst3, bind_Ok in Hloop.
  by apply (loop_keeps _ _ _ _ _ _ _ Hrec) in Hloop.
Qed.

(** * The claims of the specification *)

Lemma segment_types (lines : list string) :
  exists out, segment lines = Ok out /\
    (type <$> out) `sublist_of` ordered_keys.
Proof.
  destruct (segment_shape lines) as (found & Hseg & Hok).
  eexists. split; [exact Hseg|].
  rewrite omap_types by (intros k r Hk; by apply Hok).
  apply sublist_filter.
Qed.

(** C1. For every input, the Output Sequence has at most four Readings, no
    two of the same type, and their types are a subsequence of the fixed
    order first_reading, psalm, second_reading, gospel. *)
Theorem C1_output_shape (lines : list string) :
  exists out, segment lines = Ok out /\
    length out <= 4 /\
    NoDup (type <$> out) /\
    (type <$> out) `sublist_of` ordered_keys.
Proof.
  destruct (segment_types lines) as (out & Hseg & Hsub).
  exists out. split_and!; [done | | | done].
  - apply sublist_length in Hsub. by rewrite length_fmap in Hsub.
  - exact (sublist_NoDup _ _ NoDup_ordered_keys Hsub).
Qed.

(** Headers met in the reverse of the liturgical order still come out in
    the liturgical order. *)
Example output_order_reversed_page :
  segment ["Evangelio"; "buena nueva"; "Primera Lectura"; "profecia"] =
    Ok [ {| type := "first_reading"; title := "First Reading";
            reference := ""; text := "profecia" |};
         {| type := "gospel"; title := "Primera Lectura";
            reference := ""; text := "buena nueva" |} ].
Proof. vm_compute. reflexivity. Qed.

(** C7. The segmentation is total and raises nothing: every input gives an
    Output Sequence, which the enclosing [try] returns as it is; the
    lookahead and every iteration succeed at every index; and an input with
    no keyword anywhere gives the empty sequence. *)
Theorem C7_total_no_exception (lines : list string) :
  (exists out, segment lines = Ok out /\
               get_liturgical_readings (Ok lines) = out /\
               length out <= 4) /\
  (forall i, exists ref, lookahead lines i = Ok ref) /\
  (forall i raw st, exists st', step lines i raw st = Ok st') /\
  (forall i rest st, exists st', loop lines i rest st = Ok st') /\
  (forall found, exists out, emit found ordered_keys [] = Ok out) /\
  (Forall not_header lines -> segment lines = Ok []) /\
  segment [] = Ok [].
Proof.
  split_and!.
  - destruct (segment_types lines) as (out & Hseg & Hsub).
    exists out. split_and!; [done | |].
    + unfold get_liturgical_readings. by rewrite bind_Ok, Hseg.
    + apply sublist_length in Hsub. by rewrite length_fmap in Hsub.
  - intros i. rewrite lookahead_eq. by eexists.
  - intros i raw st. apply step_ok.
  - intros i rest st. apply loop_ok.
  - intros found. rewrite emit_eq. by eexists.
  - intros Hno. unfold segment. rewrite loop_no_header by done.
    reflexivity.
  - reflexivity.
Qed.

Lemma C7_total_no_exception_witness :
  segment ["Intro boilerplate"; "  "; "Lectura del dia 3"] = Ok [].
Proof.
  refine (proj1 (proj2 (proj2 (proj2 (proj2 (proj2
           (C7_total_no_exception _)))))) _).
  repeat (constructor; [reflexivity|]). constructor.
Defined.

(** C9. Every Reading of the Output Sequence has a text that is not empty;
    the buffered lines are never empty; and a header followed at once by
    another header, or by nothing but blank lines and its reference line,
    records nothing for that occurrence, whether the next line or the end of
    the input closes it. *)
Theorem C9_text_nonempty :
  (forall lines out r, segment lines = Ok out -> r ∈ out -> text r <> "") /\
  (forall lines i rest st x,
     loop lines i rest init_state = Ok st -> x ∈ buffer st -> x <> "") /\
  (forall lines i h st body j k nxt,
     ~ not_header h -> Forall not_header body ->
     body_lines (next_reference (lines !! (i + 1))) body = [] ->
     exists st1 st2 st3,
       step lines i h st = Ok st1 /\
       loop lines j body st1 = Ok st2 /\
       step lines k nxt st2 = Ok st3 /\
       buffer st2 = [] /\
       readings_found st2 = readings_found st1 /\
       readings_found st3 = readings_found st1 /\
       save_last st2 = readings_found st1).
Proof.
  split_and!.
  - intros lines out r Hseg Hr.
    destruct (segment_shape lines) as (found & Hseg' & Hok).
    assert (Hout : out = omap (found !!.) ordered_keys) by congruence.
    rewrite Hout in Hr.
    apply list_elem_of_omap in Hr as (k & _ & Hk).
    by apply Hok in Hk as (_ & _ & Htext).
  - intros lines i rest st x Hloop Hx.
    apply loop_state_ok in Hloop as (_ & Hvis & _); [|apply init_state_ok].
    rewrite Forall_forall in Hvis.
    by apply PyStrFacts.visible_nonempty, Hvis.
  - intros lines i h st body j k nxt Hh Hbody Hnil.
    apply is_header_detect in Hh as [val Hval].
    pose (st1 := {| buffer := []; current_section := Some val;
                    current_ref := next_reference (lines !! (i + 1));
                    readings_found := save_previous (PyStr.strip h) st |}).
    destruct (step_ok lines k nxt (buffered st1 [])) as [st3 Hst3].
    exists st1, (buffered st1 []), st3. split_and!; try done.
    + by apply step_header.
    + rewrite loop_body by done.
      change (current_section st1) with (Some val).
      change (current_ref st1) with (next_reference (lines !! (i + 1))).
      by rewrite (detect_truthy _ _ Hval), Hnil.
    + by apply step_empty_buffer in Hst3.
    + by apply save_last_empty.
Qed.

Lemma C9_text_nonempty_witness :
  exists st1 st2 st3,
    step ["Salmo Responsorial"; "Sal 22"; "Evangelio"] 0 "Salmo Responsorial"
         init_state = Ok st1 /\
    loop ["Salmo Responsorial"; "Sal 22"; "Evangelio"] 1 ["Sal 22"] st1 = Ok st2 /\
    step ["Salmo Responsorial"; "Sal 22"; "Evangelio"] 2 "Evangelio" st2 = Ok st3 /\
    buffer st2 = [] /\
    readings_found st2 = readings_found st1 /\
    readings_found st3 = readings_found st1 /\
    save_last st2 = readings_found st1.
Proof.
  refine (proj2 (proj2 C9_text_nonempty) _ 0 _ _ ["Sal 22"] 1 2 _ _ _ _).
  - unfold not_header. vm_compute. discriminate.
  - constructor; [reflexivity | constructor].
  - vm_compute. reflexivity.
Defined.

(** C10. While a section is open, a line that is not a header and whose
    stripped text equals the section's reference leaves the state as it is,
    wherever it stands; so of a run of such lines exactly the blank ones and
    every occurrence of the reference are missing from the buffer. *)
Theorem C10_reference_lines_dropped lines i st body :
  truthy (current_section st) = true ->
  Forall not_header body ->
  (forall j raw, raw ∈ body -> PyStr.strip raw = current_ref st ->
     step lines j raw st = Ok st) /\
  (forall j raw, raw ∈ body -> PyStr.strip raw <> "" ->
     PyStr.strip raw <> current_ref st ->
     step lines j raw st = Ok (buffered st [PyStr.strip raw])) /\
  exists st',
    loop lines i body st = Ok st' /\
    buffer st' =
      buffer st ++ filter (fun x => x <> "" /\ x <> current_ref st)
                          (PyStr.strip <$> body) /\
    current_ref st' = current_ref st /\
    current_section st' = current_section st /\
    readings_found st' = readings_found st.
Proof.
  intros Ht Hbody. rewrite Forall_forall in Hbody. split_and!.
  - intros j raw Hin Hr. destruct (decide (PyStr.strip raw = "")) as [He|Hne].
    { by apply step_blank. }
    rewrite (step_body _ _ _ _ Hne (Hbody _ Hin)), Ht.
    by rewrite decide_True.
  - intros j raw Hin Hne Hr.
    rewrite (step_body _ _ _ _ Hne (Hbody _ Hin)), Ht.
    by rewrite decide_False.
  - rewrite loop_body by by apply Forall_forall.
    rewrite Ht. eexists. split; [reflexivity|]. done.
Qed.

Lemma C10_reference_lines_dropped_witness :
  exists st',
    loop ["Evangelio"; "Mt 5, 1"; "uno"; "Mt 5, 1"; "dos"] 1
         ["Mt 5, 1"; "uno"; "Mt 5, 1"; "dos"]
         {| buffer := []; current_section := Some "gospel";
            current_ref := "Mt 5, 1"; readings_found := ∅ |} = Ok st' /\
    buffer st' = ["uno"; "dos"].
Proof.
  destruct (C10_reference_lines_dropped
              ["Evangelio"; "Mt 5, 1"; "uno"; "Mt 5, 1"; "dos"] 1
              {| buffer := []; current_section := Some "gospel";
                 current_ref := "Mt 5, 1"; readings_found := ∅ |}
              ["Mt 5, 1"; "uno"; "Mt 5, 1"; "dos"])
    as (_ & _ & st' & Hloop & Hbuf & _).
  - reflexivity.
  - repeat (constructor; [reflexivity|]). constructor.
  - exists st'. split; [exact Hloop|]. rewrite Hbuf. vm_compute. reflexivity.
Defined.

(** The reference recurring inside the body is dropped there as well. *)
Example reference_recurs_in_body :
  segment ["Evangelio"; "Mt 5, 1"; "uno"; "Mt 5, 1"; "dos"] =
    Ok [ {| type := "gospel"; title := "Gospel";
            reference := "Mt 5, 1"; text := "uno dos" |} ].
Proof. vm_compute. reflexivity. Qed.

(** C6. The classifier gives the section of the first keyword, in the order
    of the table, whose phrase occurs in the line up to case, wherever in the
    line it stands, and [None] when no phrase occurs; a line with two
    phrases goes to the one that is first in the table. *)
Theorem C6_classifier (line : string) :
  (forall val,
     detect keywords line = Some val <->
     exists n key,
       keywords !! n = Some (key, val) /\ occurs_ci key line /\
       forall m kv, m < n -> keywords !! m = Some kv -> ~ occurs_ci kv.1 line) /\
  (detect keywords line = None <->
     forall key val, (key, val) ∈ keywords -> ~ occurs_ci key line) /\
  keywords.*1 =
    ["Primera Lectura"; "Salmo Responsorial"; "Segunda Lectura"; "Evangelio"] /\
  keywords.*2 = ordered_keys /\
  detect keywords "Evangelio que sigue a la PRIMERA LECTURA" =
    Some "first_reading" /\
  detect keywords "salmo responsorial y evangelio" = Some "psalm" /\
  detect keywords "Oremos" = None.
Proof.
  split_and!; try reflexivity.
  - intros val. apply detect_Some_iff.
  - apply detect_None_iff.
Qed.

(** C2. A title has two origins.  A section closed by a header line and
    recorded takes that header line, stripped, as its title, not the line
    that opened it; a section closed by the end of the input and recorded
    takes the title-cased name of its type.  Every title of the Output
    Sequence is one or the other. *)
Theorem C2_title_paths :
  (forall lines i raw st sec,
     current_section st = Some sec -> truthy (Some sec) = true ->
     buffer st <> [] -> readings_found st !! sec = None ->
     ~ not_header raw ->
     exists st' r,
       step lines i raw st = Ok st' /\
       readings_found st' !! sec = Some r /\
       title r = PyStr.strip raw /\ type r = sec) /\
  (forall st sec,
     current_section st = Some sec -> truthy (Some sec) = true ->
     buffer st <> [] -> readings_found st !! sec = None ->
     exists r,
       save_last st !! sec = Some r /\
       title r = PyStr.title (PyStr.replace "_" " " sec) /\ type r = sec) /\
  (forall lines out r,
     segment lines = Ok out -> r ∈ out ->
     (exists raw, raw ∈ lines /\ ~ not_header raw /\ title r = PyStr.strip raw) \/
     title r = PyStr.title (PyStr.replace "_" " " (type r))) /\
  (fun sec => PyStr.title (PyStr.replace "_" " " sec)) <$> ordered_keys =
    ["First Reading"; "Psalm"; "Second Reading"; "Gospel"] /\
  segment ["Primera Lectura"; "Texto"; "Evangelio"] =
    Ok [ {| type := "first_reading"; title := "Evangelio";
            reference := ""; text := "Texto" |} ] /\
  segment ["Evangelio"; "Texto"] =
    Ok [ {| type := "gospel"; title := "Gospel";
            reference := ""; text := "Texto" |} ].
Proof.
  split_and!; try reflexivity.
  - intros lines i raw st sec Hsec Ht Hbuf Hnew Hh.
    apply is_header_detect in Hh as [val Hval].
    rewrite (step_header _ _ _ _ _ Hval). do 2 eexists.
    split; [reflexivity|]. simpl.
    rewrite (save_previous_new _ _ _ Hsec Ht Hbuf Hnew). done.
  - intros st sec Hsec Ht Hbuf Hnew.
    rewrite (save_last_new _ _ Hsec Ht Hbuf Hnew). by eexists.
  - intros lines out r Hseg Hr.
    destruct (segment_eq lines) as (st & Hloop & Hseg').
    assert (Hout : out = omap (save_last st !!.) ordered_keys) by congruence.
    rewrite Hout in Hr. apply list_elem_of_omap in Hr as (k & _ & Hk).
    revert Hk. apply save_last_titled. revert Hloop.
    apply (loop_invariant (fun s => titled lines (readings_found s))).
    + intros j raw s s' Hin. by apply step_titled.
    + intros k' r' Hk'. simpl in Hk'. by rewrite lookup_empty in Hk'.
Qed.

Lemma C2_title_paths_witness :
  exists st' r,
    step ["Primera Lectura"; "Texto"; "Evangelio"] 2 "Evangelio"
      {| buffer := ["Texto"]; current_section := Some "first_reading";
         current_ref := ""; readings_found := ∅ |} = Ok st' /\
    readings_found st' !! "first_reading" = Some r /\
    title r = PyStr.strip "Evangelio" /\ type r = "first_reading".
Proof.
  refine (proj1 C2_title_paths _ 2 "Evangelio"
            {| buffer := ["Texto"]; current_section := Some "first_reading";
               current_ref := ""; readings_found := ∅ |}
            "first_reading" _ _ _ _ _).
  - reflexivity.
  - reflexivity.
  - discriminate.
  - reflexivity.
  - unfold not_header. vm_compute. discriminate.
Defined.

(** C5, as the code has it.  On the scenario of the specification the output
    is the psalm alone: "Texto de la primera lectura." and "Texto del
    evangelio." contain a keyword phrase, so each is taken for a header and
    closes the section it was meant to fill.  With body lines that name no
    section, the same page gives the three Readings in the liturgical order,
    the first with reference "Is 25, 6-10" and its body line as text. *)
Theorem C5_scenario :
  segment scenario =
    Ok [ {| type := "psalm"; title := "Evangelio";
            reference := "Sal 22"; text := "Texto del salmo." |} ] /\
  detect keywords "Texto de la primera lectura." = Some "first_reading" /\
  detect keywords "Texto del evangelio." = Some "gospel" /\
  segment scenario_plain =
    Ok [ {| type := "first_reading"; title := "Salmo Responsorial";
            reference := "Is 25, 6-10"; text := "Texto de la profecia." |};
         {| type := "psalm"; title := "Evangelio";
            reference := "Sal 22"; text := "Texto del salmo." |};
         {| type := "gospel"; title := "Gospel";
            reference := "Mt 5, 1-12"; text := "Texto de la buena nueva." |} ].
Proof. split_and!; vm_compute; reflexivity. Qed.

(** Against C5 as worded: the scenario does not give three Readings, and
    gives no first reading. *)
Lemma C5_counterexample :
  ~ exists out, segment scenario = Ok out /\
      (length out = 3 \/ exists r, r ∈ out /\ type r = "first_reading").
Proof.
  intros (out & Hseg & Hout). vm_compute in Hseg. injection Hseg as <-.
  destruct Hout as [Hlen | (r & Hr & Hty)]; [discriminate|].
  apply list_elem_of_singleton in Hr. subst r. discriminate.
Qed.

(** C3, as the code has it.  When the line after a header contains a digit,
    its stripped text is the reference of the section the header opens, it
    is never among the body lines of that section, and a Reading recorded
    for the section carries it as reference and not in its text.  When the
    line after the header has no digit the reference is empty, and that line
    is buffered as body text provided it is not blank and not itself a
    header. *)
Theorem C3_reference_lookahead lines i h st sec nxt :
  detect keywords (PyStr.strip h) = Some sec ->
  lines !! (i + 1) = Some nxt ->
  exists st1,
    step lines i h st = Ok st1 /\
    current_section st1 = Some sec /\ buffer st1 = [] /\
    (PyStr.any_isdigit (PyStr.strip nxt) = true ->
       current_ref st1 = PyStr.strip nxt /\
       forall j body, Forall not_header body ->
         exists st2,
           loop lines j body st1 = Ok st2 /\
           current_section st2 = Some sec /\
           current_ref st2 = PyStr.strip nxt /\
           buffer st2 = body_lines (PyStr.strip nxt) body /\
           (PyStr.strip nxt ∉ buffer st2) /\
           (readings_found st1 !! sec = None -> buffer st2 <> [] ->
              (exists r, save_last st2 !! sec = Some r /\
                 reference r = PyStr.strip nxt /\
                 text r = PyStr.strip (PyStr.join " "
                            (body_lines (PyStr.strip nxt) body))) /\
              (forall k h2, ~ not_header h2 ->
                 exists st3 r, step lines k h2 st2 = Ok st3 /\
                   readings_found st3 !! sec = Some r /\
                   reference r = PyStr.strip nxt /\
                   text r = PyStr.strip (PyStr.join " "
                              (body_lines (PyStr.strip nxt) body))))) /\
    (PyStr.any_isdigit (PyStr.strip nxt) = false ->
       current_ref st1 = "" /\
       (PyStr.strip nxt <> "" -> not_header nxt ->
          step lines (i + 1) nxt st1 = Ok (buffered st1 [PyStr.strip nxt]))).
Proof.
  intros Hh Hnxt. rewrite (step_header _ _ _ _ _ Hh), Hnxt.
  pose proof (detect_truthy _ _ Hh) as Ht.
  eexists. split; [reflexivity|]. simpl. split_and!; try done.
  - intros Hdig. rewrite Hdig. split; [done|].
    intros j body Hbody.
    rewrite (loop_body _ _ _ _ Hbody).
    cbn [current_section current_ref]. rewrite Ht.
    eexists. split; [reflexivity|]. simpl. split_and!; try done.
    + unfold body_lines. rewrite list_elem_of_filter. by intros [[_ ?] _].
    + intros Hnew Hbuf. split.
      * erewrite save_last_new; try done. by eexists.
      * intros k h2 Hh2.
        edestruct (close_by_header lines k h2) as (st3 & -> & Hrec);
          [| exact Ht | exact Hbuf | | exact Hh2 | ]; try done.
        by do 2 eexists.
  - intros Hdig. rewrite Hdig. split; [done|].
    intros Hne Hnh. rewrite (step_body _ _ _ _ Hne Hnh).
    cbn [current_section current_ref]. rewrite Ht.
    by rewrite decide_False.
Qed.

Lemma C3_reference_lookahead_witness :
  exists st1,
    step ["Salmo Responsorial"; "Sal 22"; "El Senor es mi pastor"] 0
         "Salmo Responsorial" init_state = Ok st1 /\
    current_ref st1 = "Sal 22" /\
    exists st2,
      loop ["Salmo Responsorial"; "Sal 22"; "El Senor es mi pastor"] 1
           ["Sal 22"; "El Senor es mi pastor"] st1 = Ok st2 /\
      buffer st2 = ["El Senor es mi pastor"].
Proof.
  destruct (C3_reference_lookahead
              ["Salmo Responsorial"; "Sal 22"; "El Senor es mi pastor"] 0
              "Salmo Responsorial" init_state "psalm" "Sal 22"
              eq_refl eq_refl)
    as (st1 & Hst1 & _ & _ & Hdigit & _).
  destruct (Hdigit eq_refl) as [Href Hrun].
  destruct (Hrun 1 ["Sal 22"; "El Senor es mi pastor"])
    as (st2 & Hst2 & _ & _ & Hbuf & _).
  { repeat (constructor; [reflexivity|]). constructor. }
  exists st1. split_and!; [exact Hst1 | exact Href |].
  exists st2. split; [exact Hst2 | exact Hbuf].
Defined.

(** Against C3 as worded: a line without digit that follows a header and is
    itself a header is not body text of the section just opened; it opens
    the next one. *)
Lemma C3_counterexample :
  let lines := ["Primera Lectura"; "Evangelio"; "cuerpo"] in
  detect keywords (PyStr.strip "Primera Lectura") = Some "first_reading" /\
  lines !! 1 = Some "Evangelio" /\
  PyStr.any_isdigit (PyStr.strip "Evangelio") = false /\
  exists st1 st2,
    step lines 0 "Primera Lectura" init_state = Ok st1 /\
    step lines 1 "Evangelio" st1 = Ok st2 /\
    current_section st1 = Some "first_reading" /\
    buffer st2 = [] /\
    current_section st2 = Some "gospel" /\
    segment lines =
      Ok [ {| type := "gospel"; title := "Gospel";
              reference := ""; text := "cuerpo" |} ].
Proof.
  split_and!; try reflexivity.
  do 2 eexists. split_and!;
    [vm_compute; reflexivity | vm_compute; reflexivity | reflexivity..].
Qed.

(** C4, as the code has it.  A Reading once recorded is never replaced, so
    every later section of its type is dropped when it closes.  The first
    section of a type whose body holds a line when the next header closes it
    is the one recorded and the only Reading of that type in the output: its
    title is that next header, its reference the one looked up after its own
    header, its text the body lines before that next header. *)
Theorem C4_first_recorded_wins :
  (forall lines i rest st st' k r,
     readings_found st !! k = Some r -> loop lines i rest st = Ok st' ->
     readings_found st' !! k = Some r /\ save_last st' !! k = Some r) /\
  (forall pre h1 body h2 rest sec,
     let lines := pre ++ h1 :: body ++ h2 :: rest in
     let ref := next_reference (head body) in
     Forall (fun raw => detect keywords (PyStr.strip raw) <> Some sec) pre ->
     detect keywords (PyStr.strip h1) = Some sec ->
     Forall not_header body -> ~ not_header h2 ->
     body_lines ref body <> [] ->
     exists out r,
       segment lines = Ok out /\ r ∈ out /\
       r = {| type := sec; title := PyStr.strip h2; reference := ref;
              text := PyStr.strip (PyStr.join " " (body_lines ref body)) |} /\
       forall r', r' ∈ out -> type r' = sec -> r' = r).
Proof.
  split.
  - intros lines i rest st st' k r Hk Hloop.
    pose proof (loop_keeps _ _ _ _ _ _ _ Hk Hloop) as Hk'.
    split; [done | by apply save_last_keeps].
  - intros pre h1 body h2 rest sec lines ref Hpre Hh1 Hbody Hh2 Hbuf.
    destruct body as [|b0 body']; [done|].
    assert (Hnext : lines !! (length pre + 1) = Some b0).
    { unfold lines. rewrite lookup_app_r by lia.
      by replace (length pre + 1 - length pre) with 1 by lia. }
    destruct (segment_eq lines) as (st & Hloop & Hseg).
    pose proof (loop_state_ok _ _ _ _ _ init_state_ok Hloop) as Hok.
    apply save_last_ok in Hok.
    apply (loop_first_section lines pre h1 (b0 :: body') h2 rest sec)
      in Hloop; [| done | done | done | done | by rewrite Hnext].
    rewrite Hnext in Hloop. apply save_last_keeps in Hloop.
    do 2 eexists. split; [exact Hseg|]. split_and!; [| reflexivity |].
    + apply list_elem_of_omap. exists sec.
      split; [eauto using detect_keywords_values | exact Hloop].
    + intros r' Hr' Hty. apply list_elem_of_omap in Hr' as (k & _ & Hk).
      destruct (Hok _ _ Hk) as (Hty' & _).
      assert (k = sec) as -> by congruence.
      rewrite Hloop in Hk. by injection Hk.
Qed.

Lemma C4_first_recorded_wins_witness :
  exists out r,
    segment (["Intro"] ++ "Evangelio" :: ["Mt 5, 1"; "Bienaventurados"] ++
             "Evangelio" :: ["Mt 6, 1"; "Mucho mas texto"; "y mas"]) = Ok out /\
    r ∈ out /\
    r = {| type := "gospel"; title := "Evangelio"; reference := "Mt 5, 1";
           text := "Bienaventurados" |} /\
    forall r', r' ∈ out -> type r' = "gospel" -> r' = r.
Proof.
  refine (proj2 C4_first_recorded_wins ["Intro"] "Evangelio"
            ["Mt 5, 1"; "Bienaventurados"] "Evangelio"
            ["Mt 6, 1"; "Mucho mas texto"; "y mas"] "gospel" _ _ _ _ _).
  - repeat (constructor; [vm_compute; discriminate|]). constructor.
  - reflexivity.
  - repeat (constructor; [reflexivity|]). constructor.
  - unfold not_header. vm_compute. discriminate.
  - vm_compute. discriminate.
Defined.

(** Against C4 as worded: of two gospel headers, the first with no body,
    the Reading recorded is the second section, with its reference and a
    text that comes after the second header. *)
Lemma C4_counterexample :
  let lines := ["Evangelio del dia"; "Evangelio segun san Mateo";
                "Mt 5, 1-12"; "Bienaventurados"] in
  detect keywords (PyStr.strip "Evangelio del dia") = Some "gospel" /\
  detect keywords (PyStr.strip "Evangelio segun san Mateo") = Some "gospel" /\
  lines !! 0 = Some "Evangelio del dia" /\
  lines !! 1 = Some "Evangelio segun san Mateo" /\
  lines !! 3 = Some "Bienaventurados" /\
  segment lines =
    Ok [ {| type := "gospel"; title := "Gospel";
            reference := "Mt 5, 1-12"; text := "Bienaventurados" |} ].
Proof. split_and!; vm_compute; reflexivity. Qed.

(** * Further properties of the code *)

(** ** More on the string methods *)

Module PyStrMore.
Import PyStr.

#[local] Arguments String.append !_ _ / : simpl nomatch.

Lemma rstrip_idem (s : string) : rstrip (rstrip s) = rstrip s.
Proof.
  induction s as [|c s IH]; [done|]. cbn [rstrip].
  destruct (rstrip s) as [|d r] eqn:Hr.
  - destruct (isspace c) eqn:Hc; [done|]. cbn [rstrip]. by rewrite Hc.
  - cbn [rstrip]. cbn [rstrip] in IH. by rewrite IH.
Qed.

Lemma lstrip_of_visible (s : string) : visible s -> lstrip s = s.
Proof. intros (c & r & -> & Hc). simpl. by rewrite Hc. Qed.

Lemma strip_idem (s : string) : strip (strip s) = strip s.
Proof.
  destruct (decide (strip s = "")) as [He|Hne]; [by rewrite He|].
  apply PyStrFacts.strip_visible in Hne.
  unfold strip at 1. rewrite (lstrip_of_visible _ Hne).
  unfold strip. apply rstrip_idem.
Qed.

Lemma trimmed_strip (s : string) : trimmed (strip s).
Proof. apply strip_idem. Qed.

Lemma trimmed_visible (s : string) : trimmed s -> s <> "" -> visible s.
Proof.
  unfold trimmed. intros Ht Hne. rewrite <- Ht.
  apply PyStrFacts.strip_visible. by rewrite Ht.
Qed.

Lemma rstrip_of_trimmed (s : string) : trimmed s -> s <> "" -> rstrip s = s.
Proof.
  intros Ht Hne. pose proof (trimmed_visible _ Ht Hne) as Hv.
  unfold trimmed, strip in Ht. by rewrite (lstrip_of_visible _ Hv) in Ht.
Qed.

Lemma append_nonempty_r (a t : string) : t <> "" -> a +:+ t <> "".
Proof. destruct a; simpl; [done | discriminate]. Qed.

Lemma rstrip_app (a t : string) :
  rstrip t <> "" -> rstrip (a +:+ t) = a +:+ rstrip t.
Proof.
  intros Ht. induction a as [|c a IH]; simpl; [done|].
  rewrite IH. pose proof (append_nonempty_r a _ Ht) as Hne.
  by destruct (a +:+ rstrip t).
Qed.

(** Two trimmed pieces joined by one space are trimmed. *)
Lemma strip_spaced (a b : string) :
  visible a -> trimmed b -> b <> "" ->
  strip (a +:+ " " +:+ b) = a +:+ " " +:+ b.
Proof.
  intros Ha Hb Hne. unfold strip.
  rewrite lstrip_of_visible
    by (destruct Ha as (c & r & -> & Hc); by eexists c, _).
  pose proof (rstrip_of_trimmed _ Hb Hne) as Hrb.
  assert (Hsp : rstrip (" " +:+ b) = " " +:+ b).
  { rewrite rstrip_app by by rewrite Hrb. by rewrite Hrb. }
  rewrite rstrip_app; rewrite Hsp; [done | discriminate].
Qed.

(** The [strip] applied to the joined buffer changes nothing. *)
Lemma strip_join (buf : list string) :
  Forall (fun x => x <> "" /\ trimmed x) buf ->
  strip (join " " buf) = join " " buf /\ (buf <> [] -> join " " buf <> "").
Proof.
  induction 1 as [|x buf [Hne Ht] Hbuf [IH IHne]]; [done|].
  destruct buf as [|y buf].
  { split; [exact Ht | by intros _]. }
  assert (Hv : visible x) by by apply trimmed_visible.
  change (join " " (x :: y :: buf)) with (x +:+ " " +:+ join " " (y :: buf)).
  split.
  - apply strip_spaced; [done | exact IH | by apply IHne].
  - intros _. destruct Hv as (c & r & -> & _). discriminate.
Qed.

(** *** Cutting into lines *)

Lemma split_nonempty (sep : ascii) (s : string) : split sep s <> [].
Proof.
  destruct s as [|c s]; [done|]. simpl.
  destruct (Ascii.eqb c sep); [done|]. by destruct (split sep s).
Qed.

Lemma join_cons_cons (sep x y : string) (l : list string) :
  join sep (x :: y :: l) = x +:+ sep +:+ join sep (y :: l).
Proof. reflexivity. Qed.

Lemma join_split (sep : ascii) (s : string) :
  join (String sep "") (split sep s) = s.
Proof.
  induction s as [|c s IH]; [done|]. cbn [split].
  pose proof (split_nonempty sep s) as Hs.
  destruct (Ascii.eqb_spec c sep) as [->|Hne];
    destruct (split sep s) as [|y l]; try done.
  - rewrite <- IH. reflexivity.
  - rewrite <- IH. by destruct l.
Qed.

Lemma split_no_sep (sep : ascii) (s : string) :
  Forall (fun piece => has_char sep piece = false) (split sep s).
Proof.
  induction s as [|c s IH]; [by repeat constructor|]. cbn [split].
  destruct (Ascii.eqb c sep) eqn:Hc; [by constructor|].
  destruct (split sep s) as [|y l]; [by repeat constructor; simpl; rewrite Hc|].
  inversion IH as [|? ? Hy Hl]; subst. constructor; [|done].
  simpl. by rewrite Hc.
Qed.

Lemma split_has_char (sep : ascii) (s : string) :
  has_char sep s = false -> split sep s = [s].
Proof.
  induction s as [|c s IH]; [done|]. simpl.
  destruct (Ascii.eqb c sep); [done|]. simpl. intros Hs. by rewrite IH.
Qed.

Lemma split_app_sep (sep : ascii) (x rest : string) :
  has_char sep x = false ->
  split sep (x +:+ String sep rest) = x :: split sep rest.
Proof.
  induction x as [|c x IH]; cbn [has_char String.append split].
  - intros _. by rewrite Ascii.eqb_refl.
  - intros [Hc Hx]%orb_false_iff. by rewrite Hc, (IH Hx).
Qed.

Lemma split_join (sep : ascii) (pieces : list string) :
  pieces <> [] -> Forall (fun piece => has_char sep piece = false) pieces ->
  split sep (join (String sep "") pieces) = pieces.
Proof.
  intros Hne Hall. induction Hall as [|x l Hx Hl IH]; [done|].
  destruct l as [|y l].
  { by apply split_has_char. }
  change (join (String sep "") (x :: y :: l))
    with (x +:+ String sep (join (String sep "") (y :: l))).
  rewrite (split_app_sep _ _ _ Hx). by rewrite IH.
Qed.

End PyStrMore.

(** ** The loop depends on the lines that follow only through the lookahead *)

Lemma next_reference_blank (raw : string) :
  PyStr.strip raw = "" -> next_reference (Some raw) = "".
Proof. unfold next_reference. by intros ->. Qed.

Lemma blank_not_header (raw : string) : PyStr.strip raw = "" -> not_header raw.
Proof. unfold not_header. intros ->. apply detect_blank. Qed.

Lemma step_lookahead_ext lines1 i1 lines2 i2 raw st :
  not_header raw \/
    next_reference (lines1 !! (i1 + 1)) = next_reference (lines2 !! (i2 + 1)) ->
  step lines1 i1 raw st = step lines2 i2 raw st.
Proof.
  intros Hext. destruct (decide (PyStr.strip raw = "")) as [He|Hne].
  { by rewrite !step_blank. }
  destruct (detect keywords (PyStr.strip raw)) as [val|] eqn:Hd.
  - rewrite !(step_header _ _ _ _ _ Hd).
    destruct Hext as [Hnh | ->]; [|done]. unfold not_header in Hnh. congruence.
  - by rewrite !step_body.
Qed.

Lemma loop_ext lines1 i1 lines2 i2 rest st :
  (forall k raw, rest !! k = Some raw ->
     not_header raw \/
     next_reference (lines1 !! (i1 + k + 1)) =
       next_reference (lines2 !! (i2 + k + 1))) ->
  loop lines1 i1 rest st = loop lines2 i2 rest st.
Proof.
  revert i1 i2 st. induction rest as [|raw rest IH]; intros i1 i2 st Hext.
  { done. }
  cbn [loop]. rewrite (step_lookahead_ext lines1 i1 lines2 i2).
  - destruct (step lines2 i2 raw st) as [st'|e]; [|done].
    rewrite !bind_Ok. apply IH. intros k raw' Hk.
    replace (S i1 + k + 1) with (i1 + S k + 1) by lia.
    replace (S i2 + k + 1) with (i2 + S k + 1) by lia.
    by apply (Hext (S k)).
  - specialize (Hext 0 raw eq_refl). by rewrite !Nat.add_0_r in Hext.
Qed.

(** X2. Lines that come before the first header, whatever they are, change
    nothing of the output. *)
Theorem preamble_ignored (pre lines : list string) :
  Forall not_header pre -> segment (pre ++ lines) = segment lines.
Proof.
  intros Hpre. unfold segment.
  rewrite loop_app, (loop_no_header _ _ _ Hpre), bind_Ok.
  rewrite (loop_ext (pre ++ lines) (0 + length pre) lines 0); [done|].
  intros k raw _. right. f_equal.
  rewrite lookup_app_r by lia. f_equal. lia.
Qed.

Lemma preamble_ignored_witness :
  segment (["Inicio"; "Santoral del dia 4"] ++ ["Evangelio"; "Mt 5, 1"; "Texto"]) =
  segment ["Evangelio"; "Mt 5, 1"; "Texto"].
Proof.
  apply (preamble_ignored ["Inicio"; "Santoral del dia 4"]).
  repeat (constructor; [reflexivity|]). constructor.
Defined.

(** X3. A blank line changes nothing of the output, unless it stands right
    after a header whose next line would otherwise give a reference: there
    it takes the place of that line in the lookahead. *)
Theorem blank_line_ignored (before after : list string) (blank : string) :
  PyStr.strip blank = "" ->
  (forall h, last before = Some h ->
     not_header h \/ next_reference (head after) = "") ->
  segment (before ++ blank :: after) = segment (before ++ after).
Proof.
  intros Hblank Hlast. unfold segment. rewrite !loop_app.
  rewrite (loop_ext (before ++ blank :: after) 0 (before ++ after) 0 before).
  - destruct (loop (before ++ after) 0 before init_state) as [st|e]; [|done].
    rewrite !bind_Ok. cbn [loop]. rewrite (step_blank _ _ _ _ Hblank), bind_Ok.
    rewrite (loop_ext (before ++ blank :: after) (S (0 + length before))
               (before ++ after) (0 + length before)); [done|].
    intros k raw _. right. f_equal.
    rewrite !lookup_app_r by lia.
    replace (S (0 + length before) + k + 1 - length before) with (S (S k))
      by lia.
    replace (0 + length before + k + 1 - length before) with (S k) by lia.
    done.
  - intros k raw Hk. pose proof (lookup_lt_Some _ _ _ Hk) as Hlt.
    destruct (decide (k + 1 < length before)) as [Hin|Hend].
    + right. by rewrite !lookup_app_l by (simpl; lia).
    + assert (Hk1 : k + 1 = length before) by (simpl in *; lia).
      destruct (Hlast raw) as [Hnh|Href].
      { rewrite last_lookup. rewrite <- Hk. f_equal. lia. }
      { by left. }
      right. rewrite !lookup_app_r by lia.
      replace (0 + k + 1 - length before) with 0 by lia.
      change ((blank :: after) !! 0) with (Some blank).
      by rewrite (next_reference_blank _ Hblank), <- head_lookup, Href.
Qed.

Lemma blank_line_ignored_witness :
  segment (["Evangelio"; "Mt 5, 1"] ++ "  " :: ["Texto"; "Salmo Responsorial"]) =
  segment (["Evangelio"; "Mt 5, 1"] ++ ["Texto"; "Salmo Responsorial"]).
Proof.
  apply blank_line_ignored; [reflexivity|].
  intros h [= <-]. left. reflexivity.
Defined.

(** Right after a header the blank line does matter: the citation that
    follows it is no longer the reference, and lands in the text. *)
Example blank_line_after_header :
  segment ["Evangelio"; " "; "Mt 5, 1"; "Texto"] =
    Ok [ {| type := "gospel"; title := "Gospel";
            reference := ""; text := "Mt 5, 1 Texto" |} ] /\
  segment ["Evangelio"; "Mt 5, 1"; "Texto"] =
    Ok [ {| type := "gospel"; title := "Gospel";
            reference := "Mt 5, 1"; text := "Texto" |} ].
Proof. split; vm_compute; reflexivity. Qed.

(** ** White space around a line *)

Lemma step_strip lines i raw st :
  step (PyStr.strip <$> lines) i (PyStr.strip raw) st = step lines i raw st.
Proof.
  assert (Hnext : next_reference ((PyStr.strip <$> lines) !! (i + 1)) =
                  next_reference (lines !! (i + 1))).
  { rewrite list_lookup_fmap. destruct (lines !! (i + 1)) as [x|]; [|done].
    simpl. by rewrite !PyStrMore.strip_idem. }
  destruct (decide (PyStr.strip raw = "")) as [He|Hne].
  { rewrite !step_blank; [done | done | by rewrite PyStrMore.strip_idem]. }
  destruct (detect keywords (PyStr.strip raw)) as [val|] eqn:Hd.
  - rewrite (step_header _ _ raw _ _ Hd).
    rewrite (step_header _ _ (PyStr.strip raw) _ val)
      by by rewrite PyStrMore.strip_idem.
    by rewrite Hnext, PyStrMore.strip_idem.
  - rewrite (step_body _ _ raw) by done.
    rewrite (step_body _ _ (PyStr.strip raw))
      by by rewrite PyStrMore.strip_idem.
    by rewrite PyStrMore.strip_idem.
Qed.

Lemma loop_strip lines i rest st :
  loop (PyStr.strip <$> lines) i (PyStr.strip <$> rest) st =
  loop lines i rest st.
Proof.
  revert i st. induction rest as [|raw rest IH]; intros i st; [done|].
  rewrite fmap_cons. cbn [loop]. rewrite step_strip.
  destruct (step lines i raw st) as [st'|e]; [|done].
  rewrite !bind_Ok. apply IH.
Qed.

(** X1. White space at either end of any line changes nothing of the
    output: the lines may be stripped beforehand. *)
Theorem strip_lines_ignored (lines : list string) :
  segment (PyStr.strip <$> lines) = segment lines.
Proof. unfold segment. by rewrite loop_strip. Qed.

(** ** Where the Readings come from *)

(** An invariant that follows the lines read so far holds after the loop. *)
Lemma loop_prefix_invariant (P : list string -> State -> Prop) lines :
  (forall done raw st st',
     P done st -> step lines (length done) raw st = Ok st' ->
     P (done ++ [raw]) st') ->
  forall rest done st st',
    P done st -> loop lines (length done) rest st = Ok st' ->
    P (done ++ rest) st'.
Proof.
  intros Hstep. induction rest as [|raw rest IH]; intros done st st' HP.
  - simpl. intros [= <-]. by rewrite app_nil_r.
  - cbn [loop]. destruct (step lines (length done) raw st) as [st1|e] eqn:Hs;
      [|done].
    rewrite bind_Ok. intros Hloop.
    replace (done ++ raw :: rest) with ((done ++ [raw]) ++ rest)
      by by rewrite <- app_assoc.
    apply (IH _ st1); [by eapply Hstep|].
    by rewrite length_app, Nat.add_1_r.
Qed.

Lemma text_from_more done raw ref txt :
  text_from done ref txt -> text_from (done ++ [raw]) ref txt.
Proof.
  intros (buf & Hne & Hsub & Hbody & Href & ->). exists buf.
  split_and!; try done. rewrite fmap_app. by apply sublist_inserts_r.
Qed.

Lemma header_in_more done raw sec :
  header_in done sec -> header_in (done ++ [raw]) sec.
Proof.
  intros (h & Hin & Hd). exists h. split; [|done].
  apply elem_of_app. by left.
Qed.

Lemma reference_from_next lines i :
  reference_from lines (next_reference (lines !! i)).
Proof.
  destruct (lines !! i) as [x|] eqn:Hx; [|by left]. simpl.
  destruct (PyStr.any_isdigit (PyStr.strip x)) eqn:Hd; [|by left].
  right. exists x. split_and!; [|done..]. by eapply list_elem_of_lookup_2.
Qed.

Lemma buffer_text (buf : list string) :
  Forall body_line buf ->
  PyStr.strip (PyStr.join " " buf) = PyStr.join " " buf.
Proof.
  intros Hb. apply PyStrMore.strip_join.
  eapply Forall_impl; [exact Hb|]. by intros x (Hne & Ht & _).
Qed.

(** The entry written by either block that saves a section. *)
Lemma sourced_entry lines done st sec ttl :
  sourced lines done st -> current_section st = Some sec ->
  nonempty (buffer st) = true ->
  let r := {| type := sec; title := ttl; reference := current_ref st;
              text := PyStr.strip (PyStr.join " " (buffer st)) |} in
  text_from done (reference r) (text r) /\
  reference_from lines (reference r) /\ header_in done sec.
Proof.
  intros (Hsub & Hbody & Hnref & Href & Hsec & _) Hcur Hbuf. simpl.
  split_and!; [| done | by apply Hsec].
  exists (buffer st). split_and!; try done.
  - by apply nonempty_true.
  - by apply buffer_text.
Qed.

Lemma sourced_save_previous lines done st line k r :
  sourced lines done st -> save_previous line st !! k = Some r ->
  text_from done (reference r) (text r) /\
  reference_from lines (reference r) /\ header_in done k.
Proof.
  intros Hsrc. pose proof Hsrc as (_ & _ & _ & _ & _ & Hrec).
  case_save st; try apply Hrec.
  destruct (decide (k = sec)) as [->|Hne].
  - rewrite lookup_insert_eq. intros [= <-].
    destruct Hbuf as [_ Hbuf]. by apply (sourced_entry lines done st sec line).
  - rewrite lookup_insert_ne by done. apply Hrec.
Qed.

Lemma sourced_save_last lines done st k r :
  sourced lines done st -> save_last st !! k = Some r ->
  text_from done (reference r) (text r) /\
  reference_from lines (reference r) /\ header_in done k.
Proof.
  intros Hsrc. pose proof Hsrc as (_ & _ & _ & _ & _ & Hrec).
  case_save st; try apply Hrec.
  destruct (decide (k = sec)) as [->|Hne].
  - rewrite lookup_insert_eq. intros [= <-].
    destruct Hbuf as [_ Hbuf]. by apply (sourced_entry lines done st sec).
  - rewrite lookup_insert_ne by done. apply Hrec.
Qed.

Lemma step_sourced lines done raw st st' :
  sourced lines done st -> step lines (length done) raw st = Ok st' ->
  sourced lines (done ++ [raw]) st'.
Proof.
  intros Hsrc. pose proof Hsrc as (Hsub & Hbody & Hnref & Href & Hsec & Hrec).
  assert (Hweak : forall k r, readings_found st !! k = Some r ->
            text_from (done ++ [raw]) (reference r) (text r) /\
            reference_from lines (reference r) /\
            header_in (done ++ [raw]) k).
  { intros k r Hk. destruct (Hrec k r Hk) as (Ht & Hr & Hh).
    split_and!; [by apply text_from_more | done | by apply header_in_more]. }
  assert (Hsub' : buffer st `sublist_of` (PyStr.strip <$> done ++ [raw])).
  { rewrite fmap_app. by apply sublist_inserts_r. }
  destruct (decide (PyStr.strip raw = "")) as [He|Hne].
  { rewrite step_blank by done. intros [= <-].
    split_and!; try done. intros sec Hs. by apply header_in_more, Hsec. }
  destruct (detect keywords (PyStr.strip raw)) as [val|] eqn:Hd.
  - erewrite step_header by done. intros [= <-].
    split_and!; simpl; try done.
    + apply sublist_nil_l.
    + apply reference_from_next.
    + intros sec [= <-]. exists raw. split; [|done].
      apply elem_of_app. right. by left.
    + intros k r Hk.
      destruct (sourced_save_previous _ _ _ _ _ _ Hsrc Hk) as (Ht & Hr & Hh).
      split_and!; [by apply text_from_more | done | by apply header_in_more].
  - rewrite step_body by done. intros [= <-].
    destruct (truthy (current_section st)).
    2:{ split_and!; try done. intros sec Hs. by apply header_in_more, Hsec. }
    case_decide as Heq.
    { split_and!; try done. intros sec Hs. by apply header_in_more, Hsec. }
    split_and!; simpl; try done.
    + rewrite fmap_app. by apply sublist_app.
    + apply Forall_app. split; [done|]. constructor; [|done].
      split_and!; [done | apply PyStrMore.trimmed_strip | done].
    + apply Forall_app. split; [done|]. by constructor.
    + intros sec Hs. by apply header_in_more, Hsec.
Qed.

Lemma segment_sourced (lines : list string) :
  exists out, segment lines = Ok out /\
    Forall (fun r => text_from lines (reference r) (text r) /\
                     reference_from lines (reference r) /\
                     header_in lines (type r)) out.
Proof.
  destruct (segment_eq lines) as (st & Hloop & Hseg).
  pose proof (loop_state_ok _ _ _ _ _ init_state_ok Hloop) as Hok.
  apply save_last_ok in Hok.
  apply (loop_prefix_invariant (sourced lines) lines
           (step_sourced lines) lines [] init_state st) in Hloop.
  - eexists. split; [exact Hseg|]. apply Forall_forall. intros r Hr.
    apply list_elem_of_omap in Hr as (k & _ & Hk).
    destruct (Hok _ _ Hk) as (-> & _).
    by apply (sourced_save_last lines lines st).
  - split_and!; simpl;
      first [done | by left | by constructor
            | intros k r Hk; by rewrite lookup_empty in Hk].
Qed.

(** X4. The text of every Reading is exactly some body lines of the input,
    stripped, in their order and joined by single spaces: none blank, none
    a header, none equal to the Reading's reference.  The [strip] applied
    to the joined buffer never removes anything. *)
Theorem text_provenance (lines : list string) :
  exists out, segment lines = Ok out /\
    Forall (fun r => text_from lines (reference r) (text r)) out.
Proof.
  destruct (segment_sourced lines) as (out & Hseg & Hall).
  exists out. split; [done|].
  eapply Forall_impl; [exact Hall|]. by intros r (Ht & _).
Qed.

(** X5. The reference of every Reading is empty or the stripped form of a
    line of the input, and then it holds a digit. *)
Theorem reference_provenance (lines : list string) :
  exists out, segment lines = Ok out /\
    Forall (fun r => reference_from lines (reference r)) out.
Proof.
  destruct (segment_sourced lines) as (out & Hseg & Hall).
  exists out. split; [done|].
  eapply Forall_impl; [exact Hall|]. by intros r (_ & Hr & _).
Qed.

(** X6. A Reading of some type is only output when a line of the input is
    a header for that type. *)
Theorem type_provenance (lines : list string) :
  exists out, segment lines = Ok out /\
    Forall (fun r => header_in lines (type r)) out.
Proof.
  destruct (segment_sourced lines) as (out & Hseg & Hall).
  exists out. split; [done|].
  eapply Forall_impl; [exact Hall|]. by intros r (_ & _ & Hh).
Qed.

(** ** The section that the end of the input closes *)

Lemma body_lines_trimmed ref body :
  Forall (fun x => x <> "" /\ trimmed x) (body_lines ref body).
Proof.
  apply Forall_forall. intros x Hx. unfold body_lines in Hx.
  apply list_elem_of_filter in Hx as [[Hne _] Hin].
  apply list_elem_of_fmap in Hin as (raw & -> & _).
  split; [done | apply PyStrMore.trimmed_strip].
Qed.

Lemma loop_last_section lines pre h body sec st :
  Forall (fun raw => detect keywords (PyStr.strip raw) <> Some sec) pre ->
  detect keywords (PyStr.strip h) = Some sec ->
  Forall not_header body ->
  body_lines (next_reference (lines !! (length pre + 1))) body <> [] ->
  loop lines 0 (pre ++ h :: body) init_state = Ok st ->
  save_last st !! sec =
    Some {| type := sec; title := PyStr.title (PyStr.replace "_" " " sec);
            reference := next_reference (lines !! (length pre + 1));
            text := PyStr.join " "
                      (body_lines (next_reference (lines !! (length pre + 1)))
                                  body) |}.
Proof.
  intros Hpre Hh Hbody Hbuf Hloop.
  rewrite loop_app in Hloop.
  destruct (loop lines 0 pre init_state) as [st0|] eqn:Hst0; [|done].
  rewrite bind_Ok in Hloop. cbn [loop] in Hloop.
  apply (loop_untouched _ _ _ _ _ sec Hpre) in Hst0 as [Hnew Hcur];
    [|split; [apply lookup_empty | done]].
  rewrite (step_header _ _ _ _ _ Hh), bind_Ok in Hloop.
  rewrite (loop_body _ _ _ _ Hbody) in Hloop.
  cbn [current_section current_ref] in Hloop.
  rewrite (detect_truthy _ _ Hh) in Hloop.
  replace (0 + length pre + 1) with (length pre + 1) in * by lia.
  injection Hloop as <-.
  rewrite (save_last_new _ sec); simpl; try done.
  - by rewrite (proj1 (PyStrMore.strip_join _ (body_lines_trimmed _ _))).
  - by apply detect_truthy in Hh.
  - by rewrite save_previous_other.
Qed.

(** X7. The last section of its type, when nothing of that type was met
    before and lines that are not headers follow its header to the end of
    the input, is output with the title-cased name of its type as title,
    the reference looked up after its header, and its body lines joined by
    single spaces as text. *)
Theorem last_section_recorded (pre : list string) (h : string)
    (body : list string) (sec : string) :
  let lines := pre ++ h :: body in
  let ref := next_reference (head body) in
  Forall (fun raw => detect keywords (PyStr.strip raw) <> Some sec) pre ->
  detect keywords (PyStr.strip h) = Some sec ->
  Forall not_header body ->
  body_lines ref body <> [] ->
  exists out r,
    segment lines = Ok out /\ r ∈ out /\
    r = {| type := sec; title := PyStr.title (PyStr.replace "_" " " sec);
           reference := ref;
           text := PyStr.join " " (body_lines ref body) |} /\
    forall r', r' ∈ out -> type r' = sec -> r' = r.
Proof.
  intros lines ref Hpre Hh Hbody Hbuf.
  destruct body as [|b0 body']; [done|].
  assert (Hnext : lines !! (length pre + 1) = Some b0).
  { unfold lines. rewrite lookup_app_r by lia.
    by replace (length pre + 1 - length pre) with 1 by lia. }
  destruct (segment_eq lines) as (st & Hloop & Hseg).
  pose proof (loop_state_ok _ _ _ _ _ init_state_ok Hloop) as Hok.
  apply save_last_ok in Hok.
  apply (loop_last_section lines pre h (b0 :: body') sec) in Hloop;
    [| done | done | done | by rewrite Hnext].
  rewrite Hnext in Hloop.
  do 2 eexists. split; [exact Hseg|]. split_and!; [| reflexivity |].
  - apply list_elem_of_omap. exists sec.
    split; [eauto using detect_keywords_values | exact Hloop].
  - intros r' Hr' Hty. apply list_elem_of_omap in Hr' as (k & _ & Hk).
    destruct (Hok _ _ Hk) as (Hty' & _).
    assert (k = sec) as -> by congruence.
    rewrite Hloop in Hk. by injection Hk.
Qed.

Lemma last_section_recorded_witness :
  exists out r,
    segment (["Primera Lectura"; "Is 25, 6"; "Texto uno"] ++
             "Salmo Responsorial" :: ["Sal 22"; "Texto"; " del salmo "]) =
      Ok out /\ r ∈ out /\
    r = {| type := "psalm"; title := "Psalm"; reference := "Sal 22";
           text := "Texto del salmo" |} /\
    forall r', r' ∈ out -> type r' = "psalm" -> r' = r.
Proof.
  refine (last_section_recorded ["Primera Lectura"; "Is 25, 6"; "Texto uno"]
            "Salmo Responsorial" ["Sal 22"; "Texto"; " del salmo "] "psalm"
            _ _ _ _).
  - repeat (constructor; [vm_compute; discriminate|]). constructor.
  - reflexivity.
  - repeat (constructor; [reflexivity|]). constructor.
  - vm_compute. discriminate.
Defined.

(** ** From the flattened text to the lines *)

(** X8. Cutting [text_content] at the line feeds loses nothing: there is
    always at least one line, no line holds a line feed, and joining the
    lines by line feeds gives the text back; conversely, lines without line
    feed that are joined and cut again come back as they were. *)
Theorem split_lines_round_trip (text_content : string) :
  PyStr.split newline text_content <> [] /\
  Forall (fun line => PyStr.has_char newline line = false)
         (PyStr.split newline text_content) /\
  PyStr.join (String newline "") (PyStr.split newline text_content) =
    text_content /\
  (forall lines, lines <> [] ->
     Forall (fun line => PyStr.has_char newline line = false) lines ->
     PyStr.split newline (PyStr.join (String newline "") lines) = lines).
Proof.
  split_and!.
  - apply PyStrMore.split_nonempty.
  - apply PyStrMore.split_no_sep.
  - apply PyStrMore.join_split.
  - intros lines. apply PyStrMore.split_join.
Qed.

(** X9. Run on a text, the body of the function gives what the loop gives
    on the lines the text is made of: every statement about line sequences
    holds of the text that joins them by line feeds. *)
Theorem segment_text_of_lines (lines : list string) :
  Forall (fun line => PyStr.has_char newline line = false) lines ->
  segment_text (PyStr.join (String newline "") lines) = segment lines.
Proof.
  intros Hall. unfold segment_text.
  destruct lines as [|x l]; [reflexivity|].
  by rewrite PyStrMore.split_join.
Qed.

Lemma segment_text_of_lines_witness :
  segment_text (PyStr.join (String newline "")
                  ["Evangelio"; "Mt 5, 1"; "Texto"]) =
  segment ["Evangelio"; "Mt 5, 1"; "Texto"].
Proof.
  apply segment_text_of_lines.
  repeat (constructor; [reflexivity|]). constructor.
Defined.

(** ** Sections without a body *)

(** X11. A page that has header lines and blank lines only gives no Reading
    at all: a section is never recorded for its header alone. *)
Theorem headers_only_empty (lines : list string) :
  Forall (fun raw => PyStr.strip raw = "" \/ ~ not_header raw) lines ->
  segment lines = Ok [].
Proof.
  intros Hall. rewrite Forall_forall in Hall.
  destruct (segment_eq lines) as (st & Hloop & ->).
  assert (Hst : buffer st = [] /\ readings_found st = ∅).
  { revert Hloop.
    apply (loop_invariant
             (fun s => buffer s = [] /\ readings_found s = ∅)); [|done].
    intros j raw s s' Hin [Hb Hr] Hstep.
    split; [|by rewrite (step_empty_buffer _ _ _ _ _ Hb Hstep)].
    destruct (Hall raw Hin) as [He|Hh].
    - rewrite step_blank in Hstep by done. by injection Hstep as <-.
    - apply is_header_detect in Hh as [val Hval].
      rewrite (step_header _ _ _ _ _ Hval) in Hstep. by injection Hstep as <-. }
  destruct Hst as [Hb Hr]. rewrite (save_last_empty _ Hb), Hr. reflexivity.
Qed.

Lemma headers_only_empty_witness :
  segment ["Primera Lectura"; ""; "Salmo Responsorial 22"; "Evangelio"] = Ok [].
Proof.
  apply headers_only_empty.
  repeat (constructor;
          [first [left; reflexivity
                 | right; unfold not_header; vm_compute; discriminate]|]).
  constructor.
Defined.

(** * Local state and the heap *)

Lemma run_bind_Done {A B : Type} (m : Run A) (f : A -> Run B) h a h' :
  m h = Done a h' -> (m ≫= f) h = f a h'.
Proof. unfold mbind, Run_bind. by intros ->. Qed.

Lemma run_bind_alloc {B : Type} (o : obj) (f : nat -> Run B) h :
  (alloc o ≫= f) h = f (fresh (dom h)) (<[fresh (dom h) := o]> h).
Proof. reflexivity. Qed.

Lemma strings_of_strs (buf : list string) h :
  strings_of (VStr <$> buf) h = Done buf h.
Proof.
  induction buf as [|x buf IH]; [done|]. rewrite fmap_cons. cbn [strings_of].
  by rewrite (run_bind_Done _ _ _ _ _ IH).
Qed.

Lemma nonempty_fmap {A B : Type} (f : A -> B) (l : list A) :
  nonempty (f <$> l) = nonempty l.
Proof. by destruct l. Qed.

Lemma save_previous_with line st :
  save_previous line st = save_with (fun _ => line) st.
Proof. reflexivity. Qed.

Lemma save_last_with st :
  save_last st =
    save_with (fun sec => PyStr.title (PyStr.replace "_" " " sec)) st.
Proof. reflexivity. Qed.

Lemma fresh_unused (h : gmap nat obj) : h !! fresh (dom h) = None.
Proof. apply not_elem_of_dom, is_fresh. Qed.

(** What was recorded stays so when the heap changes elsewhere. *)
Lemma recorded_frame h0 h h' rf m found :
  recorded h0 h rf m found ->
  (forall l d, l <> rf -> h !! l = Some (ODict d) -> h' !! l = Some (ODict d)) ->
  recorded h0 h' rf m found.
Proof.
  intros Hrec Hsame k. specialize (Hrec k).
  destruct (m !! k) as [l|]; [|done].
  destruct Hrec as (r & Hk & Hl & Hnew & Hne). exists r.
  split_and!; try done. by apply Hsame.
Qed.

Lemma heap_save_sim title_of h0 h fr st :
  sim h0 h fr st ->
  exists h',
    heap_save title_of fr h = Done () h' /\
    sim h0 h' fr (with_found st (save_with title_of st)).
Proof.
  intros (Hsub & Hsec & Href & Hrd0 & Hrd & Hb0 & Hb & Hbrd & Hrf0
          & m & Hrf & Hrec).
  assert (Hsame : sim h0 h fr (with_found st (readings_found st))).
  { split_and!; try done. by exists m. }
  unfold heap_save, save_with. rewrite Hsec.
  destruct (current_section st) as [sec|] eqn:Hcur;
    [|exists h; split; [reflexivity | exact Hsame]].
  unfold mbind at 1, Run_bind, list_items. rewrite Hb.
  rewrite nonempty_fmap.
  destruct (truthy (Some sec) && nonempty (buffer st)) eqn:Hguard;
    [|exists h; split; [reflexivity | exact Hsame]].
  unfold mbind at 1, Run_bind. rewrite strings_of_strs.
  unfold mbind at 1, Run_bind, dict_entries. rewrite Hrf.
  rewrite lookup_fmap. unfold dict_contains.
  pose proof (Hrec sec) as Hsec_rec.
  destruct (m !! sec) as [l|] eqn:Hm.
  - destruct Hsec_rec as (r & Hk & _). rewrite Hk.
    rewrite (bool_decide_eq_true_2 (is_Some (VRef <$> Some l)))
      by by eexists.
    rewrite (bool_decide_eq_true_2 (is_Some (Some r))) by by eexists.
    exists h. split; [reflexivity | exact Hsame].
  - rewrite Hsec_rec.
    rewrite (bool_decide_eq_false_2 (is_Some (VRef <$> None)))
      by by intros [? ?].
    rewrite (bool_decide_eq_false_2 (is_Some (@None Reading)))
      by by intros [? ?].
    cbn [negb]. unfold mbind, Run_bind, alloc, dict_setitem.
    set (d := fresh (dom h)). pose proof (fresh_unused h) as Hd. fold d in Hd.
    set (r := {| type := sec; title := title_of sec;
                 reference := fr_current_ref fr;
                 text := PyStr.strip (PyStr.join " " (buffer st)) |}).
    assert (Hdrf : d <> fr_readings_found fr) by (intros Heq; congruence).
    assert (Hdrd : d <> fr_readings fr) by (intros Heq; congruence).
    assert (Hdb : d <> fr_buffer fr) by (intros Heq; congruence).
    assert (Hrfrd : fr_readings_found fr <> fr_readings fr)
      by (intros Heq; congruence).
    assert (Hrfb : fr_readings_found fr <> fr_buffer fr)
      by (intros Heq; congruence).
    rewrite lookup_insert_ne by done. rewrite Hrf.
    eexists. split; [reflexivity|].
    assert (Hd0 : h0 !! d = None) by by eapply lookup_weaken_None.
    split_and!; simpl; try done; try congruence.
    + apply insert_subseteq_r; [done|]. by apply insert_subseteq_r.
    + by rewrite !lookup_insert_ne.
    + by rewrite !lookup_insert_ne.
    + exists (<[sec := d]> m). split.
      * by rewrite lookup_insert_eq, fmap_insert.
      * intros k. destruct (decide (k = sec)) as [->|Hk].
        { rewrite !lookup_insert_eq. exists r. rewrite <- Href.
          split_and!; try done.
          by rewrite lookup_insert_ne, lookup_insert_eq. }
        rewrite !lookup_insert_ne by done.
        eapply (recorded_frame h0 h); [exact Hrec|].
        intros l' d' Hl' Hd'. rewrite !lookup_insert_ne; [done | | done].
        intros <-. congruence.
Qed.

Lemma heap_step_sim lines i raw h0 h fr st :
  sim h0 h fr st ->
  exists fr' h' st',
    step lines i raw st = Ok st' /\
    heap_step lines i raw fr h = Done fr' h' /\
    sim h0 h' fr' st'.
Proof.
  intros Hsim. unfold heap_step.
  destruct (decide (PyStr.strip raw = "")) as [He|Hne].
  { rewrite step_blank, He by done. by exists fr, h, st. }
  destruct (String.eqb_spec (PyStr.strip raw) "") as [|_]; [done|].
  destruct (detect keywords (PyStr.strip raw)) as [val|] eqn:Hd.
  - rewrite (step_header _ _ _ _ _ Hd), (detect_truthy _ _ Hd).
    destruct (heap_save_sim (fun _ => PyStr.strip raw) _ _ _ _ Hsim)
      as (h1 & Hsave & Hsim1).
    rewrite (run_bind_Done _ _ _ _ _ Hsave).
    unfold mbind, Run_bind, alloc, lift. rewrite lookahead_eq.
    do 3 eexists. split; [reflexivity|]. split; [reflexivity|].
    destruct Hsim1 as (Hsub & Hsec & Href & Hrd0 & Hrd & Hb0 & Hb & Hbrd
                       & Hrf0 & m & Hrf & Hrec).
    pose proof (fresh_unused h1) as Hnew.
    set (b := fresh (dom h1)) in *.
    assert (Hb0' : h0 !! b = None) by by eapply lookup_weaken_None.
    split_and!; simpl; try done.
    + by apply insert_subseteq_r.
    + rewrite lookup_insert_ne; [done | congruence].
    + apply lookup_insert_eq.
    + congruence.
    + exists m. split.
      * rewrite lookup_insert_ne; [done | congruence].
      * eapply recorded_frame; [exact Hrec|].
        intros l d _ Hl. rewrite lookup_insert_ne; [done | congruence].
  - rewrite (step_body _ _ _ _ Hne Hd).
    destruct Hsim as (Hsub & Hsec & Href & Hrd0 & Hrd & Hb0 & Hb & Hbrd
                      & Hrf0 & m & Hrf & Hrec).
    assert (Hsim : sim h0 h fr st).
    { split_and!; try done. by exists m. }
    cbn [truthy]. rewrite Hsec, Href.
    destruct (truthy (current_section st)); [|by exists fr, h, st].
    destruct (String.eqb_spec (PyStr.strip raw) (current_ref st)) as [Heq|Hneq].
    { rewrite decide_True by done. by exists fr, h, st. }
    rewrite decide_False by done. cbn [negb].
    unfold mbind, Run_bind, list_append. rewrite Hb.
    do 3 eexists. split; [reflexivity|]. split; [reflexivity|].
    split_and!; simpl; try done.
    + by apply insert_subseteq_r.
    + rewrite lookup_insert_ne; [done | congruence].
    + by rewrite lookup_insert_eq, fmap_app.
    + exists m. split.
      * rewrite lookup_insert_ne; [done | congruence].
      * eapply recorded_frame; [exact Hrec|].
        intros l d _ Hl. rewrite lookup_insert_ne; [done | congruence].
Qed.

Lemma heap_loop_sim lines i rest h0 h fr st :
  sim h0 h fr st ->
  exists fr' h' st',
    loop lines i rest st = Ok st' /\
    heap_loop lines i rest fr h = Done fr' h' /\
    sim h0 h' fr' st'.
Proof.
  revert i h fr st. induction rest as [|raw rest IH]; intros i h fr st Hsim.
  { by exists fr, h, st. }
  destruct (heap_step_sim lines i raw _ _ _ _ Hsim)
    as (fr1 & h1 & st1 & Hstep & Hhstep & Hsim1).
  destruct (IH (S i) _ _ _ Hsim1) as (fr2 & h2 & st2 & Hloop & Hhloop & Hsim2).
  exists fr2, h2, st2. split_and!; [| | done].
  - cbn [loop]. by rewrite Hstep, bind_Ok.
  - cbn [heap_loop]. by rewrite (run_bind_Done _ _ _ _ _ Hhstep).
Qed.

Lemma read_reading_entries h l r :
  h !! l = Some (ODict (reading_entries r)) -> read_reading h (VRef l) = Some r.
Proof. intros Hl. unfold read_reading. rewrite Hl. by destruct r. Qed.

Lemma listed_read h l items out :
  h !! l = Some (OList items) -> listed h items out ->
  read_readings h l = Some out.
Proof.
  intros Hl Hlisted. unfold read_readings. rewrite Hl. apply mapM_Some.
  eapply Forall2_impl; [exact Hlisted|].
  intros v r (l' & -> & Hr). by apply read_reading_entries.
Qed.

Lemma listed_frame h h' items out :
  listed h items out ->
  (forall l d, h !! l = Some (ODict d) -> h' !! l = Some (ODict d)) ->
  listed h' items out.
Proof.
  intros Hlisted Hsame. eapply Forall2_impl; [exact Hlisted|].
  intros v r (l & -> & Hr). exists l. split; [done | by apply Hsame].
Qed.

Lemma heap_emit_sim fr keys h0 h m found items acc :
  h0 ⊆ h -> h0 !! fr_readings fr = None ->
  h !! fr_readings fr = Some (OList items) -> listed h items acc ->
  h !! fr_readings_found fr = Some (ODict (VRef <$> m)) ->
  recorded h0 h (fr_readings_found fr) m found ->
  exists h' items',
    heap_emit fr keys h = Done () h' /\ h0 ⊆ h' /\
    h' !! fr_readings fr = Some (OList items') /\
    listed h' items' (acc ++ omap (found !!.) keys).
Proof.
  revert h items acc. induction keys as [|k keys IH];
    intros h items acc Hsub Hrd0 Hrd Hlisted Hrf Hrec.
  { exists h, items. rewrite app_nil_r. by split_and!. }
  cbn [heap_emit omap list_omap]. unfold mbind at 1, Run_bind, dict_entries.
  rewrite Hrf, lookup_fmap. pose proof (Hrec k) as Hk.
  destruct (m !! k) as [l|] eqn:Hm.
  - destruct Hk as (r & Hfound & Hl & Hl0 & Hlrf). rewrite Hfound.
    rewrite bool_decide_eq_true_2 by by eexists.
    unfold dict_getitem. rewrite lookup_fmap, Hm. cbn [fmap option_fmap option_map].
    unfold mbind at 1 2, Run_bind, lift, list_append. rewrite Hrd.
    set (h1 := <[fr_readings fr := OList (items ++ [VRef l])]> h).
    assert (Hsame : forall l' d, h !! l' = Some (ODict d) ->
                      h1 !! l' = Some (ODict d)).
    { intros l' d Hl'. unfold h1. rewrite lookup_insert_ne; [done|congruence]. }
    destruct (IH h1 (items ++ [VRef l]) (acc ++ [r]))
      as (h' & items' & Hemit & Hsub' & Hrd' & Hlisted').
    + by apply insert_subseteq_r.
    + done.
    + apply lookup_insert_eq.
    + apply Forall2_app; [by eapply listed_frame|].
      constructor; [|constructor]. exists l. split; [done | by apply Hsame].
    + by apply Hsame.
    + eapply recorded_frame; [exact Hrec|]. intros l' d _. apply Hsame.
    + exists h', items'. split_and!; try done.
      by rewrite <- app_assoc in Hlisted'.
  - rewrite Hk. rewrite bool_decide_eq_false_2 by by intros [? ?].
    by apply (IH h items acc).
Qed.

(** Run from any heap, the function leaves every object of that heap as it
    was and returns a new list that holds the Output Sequence of the lines. *)
Lemma heap_segment_refines (lines : list string) (h : gmap nat obj) :
  exists out l h',
    segment lines = Ok out /\
    heap_segment lines h = Done l h' /\
    read_readings h' l = Some out /\
    h ⊆ h' /\ h !! l = None.
Proof.
  unfold heap_segment, segment. rewrite !run_bind_alloc.
  pose proof (fresh_unused h) as Hrd. set (rd := fresh (dom h)) in *.
  set (h1 := <[rd := OList []]> h).
  pose proof (fresh_unused h1) as Hb. set (b := fresh (dom h1)) in *.
  set (h2 := <[b := OList []]> h1).
  pose proof (fresh_unused h2) as Hrf. set (rf := fresh (dom h2)) in *.
  set (h3 := <[rf := ODict ∅]> h2).
  set (fr0 := {| fr_readings := rd; fr_buffer := b;
                 fr_current_section := None; fr_current_ref := "";
                 fr_readings_found := rf |}).
  assert (Hbrd : b <> rd).
  { intros Heq. unfold h1 in Hb. rewrite Heq, lookup_insert_eq in Hb. done. }
  assert (Hrfb : rf <> b).
  { intros Heq. unfold h2 in Hrf. rewrite Heq, lookup_insert_eq in Hrf. done. }
  assert (Hrfrd : rf <> rd).
  { intros Heq. unfold h2, h1 in Hrf.
    rewrite lookup_insert_ne, Heq, lookup_insert_eq in Hrf by congruence.
    done. }
  assert (Hb0 : h !! b = None).
  { unfold h1 in Hb. by rewrite lookup_insert_ne in Hb. }
  assert (Hrf0 : h !! rf = None).
  { unfold h2, h1 in Hrf. by rewrite !lookup_insert_ne in Hrf. }
  assert (Hsim0 : sim h h3 fr0 init_state).
  { unfold h3, h2, h1. split_and!; simpl; try done.
    - by do 3 (apply insert_subseteq_r; [done|]).
    - rewrite lookup_insert_ne by done. rewrite lookup_insert_ne by done.
      apply lookup_insert_eq.
    - rewrite lookup_insert_ne by done. apply lookup_insert_eq.
    - exists ∅. split; [by rewrite lookup_insert_eq, fmap_empty|].
      intros k. by rewrite !lookup_empty. }
  destruct (heap_loop_sim lines 0 lines _ _ _ _ Hsim0)
    as (fr & h4 & st & Hloop & Hhloop & Hsim).
  rewrite Hloop, bind_Ok, emit_eq.
  rewrite (run_bind_Done _ _ _ _ _ Hhloop).
  destruct (heap_save_sim (fun sec => PyStr.title (PyStr.replace "_" " " sec))
              _ _ _ _ Hsim) as (h5 & Hsave & Hsim5).
  rewrite (run_bind_Done _ _ _ _ _ Hsave).
  destruct Hsim5 as (Hsub & _ & _ & Hrd0 & Hrd5 & _ & _ & _ & _ & m & Hrf5 & Hrec).
  cbn [readings_found with_found] in Hrec. rewrite <- save_last_with in Hrec.
  destruct (heap_emit_sim fr ordered_keys h h5 m (save_last st) [] [])
    as (h6 & items & Hemit & Hsub6 & Hrd6 & Hlisted); try done.
  { constructor. }
  rewrite (run_bind_Done _ _ _ _ _ Hemit).
  exists (omap (save_last st !!.) ordered_keys), (fr_readings fr), h6.
  split_and!; try done. by eapply listed_read.
Qed.

(** The Readings read from a list stay the same when the heap grows. *)
Lemma read_readings_weaken h h' l out :
  h ⊆ h' -> read_readings h l = Some out -> read_readings h' l = Some out.
Proof.
  intros Hsub. unfold read_readings.
  destruct (h !! l) as [[items|d]|] eqn:Hl; try done.
  rewrite (lookup_weaken _ _ _ _ Hl Hsub). rewrite !mapM_Some.
  intros Hread. eapply Forall2_impl; [exact Hread|].
  intros v r. unfold read_reading.
  destruct v as [|l']; [done|].
  destruct (h !! l') as [o|] eqn:Hl'; [|done].
  by rewrite (lookup_weaken _ _ _ _ Hl' Hsub).
Qed.

(** C8. Two runs on the same line sequence give the same Output Sequence,
    whatever the heap each one starts from: a run reads no object that was
    there before it, changes none of them, and returns a list made anew.
    In particular a second run, on the heap the first one left, gives the
    same Output Sequence in another list and leaves the first result as it
    was. *)
Theorem C8_no_hidden_state (lines : list string) (h1 h2 : gmap nat obj) :
  exists out l1 h1' l2 h2' l3 h3,
    segment lines = Ok out /\
    heap_segment lines h1 = Done l1 h1' /\
    read_readings h1' l1 = Some out /\ h1 ⊆ h1' /\ h1 !! l1 = None /\
    heap_segment lines h2 = Done l2 h2' /\
    read_readings h2' l2 = Some out /\ h2 ⊆ h2' /\ h2 !! l2 = None /\
    heap_segment lines h1' = Done l3 h3 /\
    read_readings h3 l3 = Some out /\ read_readings h3 l1 = Some out /\
    l3 <> l1.
Proof.
  destruct (heap_segment_refines lines h1)
    as (out & l1 & h1' & Hseg & Hrun1 & Hread1 & Hsub1 & Hnew1).
  destruct (heap_segment_refines lines h2)
    as (out2 & l2 & h2' & Hseg2 & Hrun2 & Hread2 & Hsub2 & Hnew2).
  destruct (heap_segment_refines lines h1')
    as (out3 & l3 & h3 & Hseg3 & Hrun3 & Hread3 & Hsub3 & Hnew3).
  assert (out2 = out) as -> by congruence.
  assert (out3 = out) as -> by congruence.
  exists out, l1, h1', l2, h2', l3, h3. split_and!; try done.
  - by eapply read_readings_weaken.
  - intros ->. unfold read_readings in Hread1. by rewrite Hnew3 in Hread1.
Qed.

(** A run on a heap that already holds objects. *)
Example heap_run_on_used_heap :
  match heap_segment ["Evangelio"; "Mt 5, 1"; "Texto"; "Salmo Responsorial"]
          {[ 0 := OList [VStr "x"]; 2 := ODict ∅ ]} with
  | Done l h' => (read_readings h' l, h' !! 0, h' !! 2)
  | _ => (None, None, None)
  end =
  (Some [ {| type := "gospel"; title := "Salmo Responsorial";
             reference := "Mt 5, 1"; text := "Texto" |} ],
   Some (OList [VStr "x"]), Some (ODict ∅)).
Proof. vm_compute. reflexivity. Qed.
